(** * Discourse analytics dashboard (src/dashboard.py)

    A shallow embedding of the data transformations of the Streamlit
    script: the sidebar filter, the grouped counts, the election
    rank-shift metric, the top-k topic lists and the article explorer.

    A DataFrame is a list of rows in row order.  A grouped count is an
    association list in the order pandas produces it.  Python integers
    are [Z]; the ranks pandas computes are halves of integers and are
    kept exactly in [Q].  Code that can raise returns a [result].  The
    order in which pandas leaves rows with equal sort keys is a
    parameter, [TieOrder]. *)

From Stdlib Require Import List Bool ZArith QArith Lia Lqa Permutation Sorted.
From Stdlib Require Import String Ascii DecimalString.
Import ListNotations.

Local Open Scope string_scope.
Local Open Scope list_scope.
Local Open Scope Z_scope.

(** ** Exceptions *)

Inductive exn : Type :=
| IndexError.  (* "single positional indexer is out-of-bounds" *)

Inductive result (A : Type) : Type :=
| Ok (a : A)
| Raise (e : exn).

Arguments Ok {A} a.
Arguments Raise {A} e.

Definition bind {A B : Type} (m : result A) (k : A -> result B) : result B :=
  match m with
  | Ok a => k a
  | Raise e => Raise e
  end.

Notation "x <- m ;; k" := (bind m (fun x => k))
  (at level 61, m at next level, right associativity).

(** ** Group keys

    Column values used as group keys are compared for equality and are
    put in order when pandas sorts group labels. *)

Class Key (K : Type) : Type := {
  key_eqb : K -> K -> bool;
  key_leb : K -> K -> bool
}.

#[export] Instance string_Key : Key string :=
  {| key_eqb := String.eqb; key_leb := String.leb |}.

#[export] Instance Z_Key : Key Z :=
  {| key_eqb := Z.eqb; key_leb := Z.leb |}.

(* A pair of labels, as in groupby(["a", "b"]): lexicographic order. *)
#[export] Instance pair_Key {A B : Type} `{Key A} `{Key B} : Key (A * B) :=
  {| key_eqb := fun x y => key_eqb (fst x) (fst y) && key_eqb (snd x) (snd y);
     key_leb := fun x y => if key_eqb (fst x) (fst y)
                           then key_leb (snd x) (snd y)
                           else key_leb (fst x) (fst y) |}.

(** ** Sorting

    Insertion sort.  [leb x y] says that [x] may stand before [y]; an
    element is put before the first one it may stand before, so elements
    that compare equal keep the order they had in the input. *)

Section Sorting.
Context {A : Type}.
Variable leb : A -> A -> bool.

Fixpoint insert_by (x : A) (l : list A) : list A :=
  match l with
  | [] => [x]
  | y :: l' => if leb x y then x :: y :: l' else y :: insert_by x l'
  end.

Definition sort_by (l : list A) : list A := fold_right insert_by [] l.
End Sorting.

(** ** Order among equal sort keys

    The script sorts twice by a column of numbers, in value_counts()
    and in sort_values(), and names no sort kind.  pandas then uses
    "quicksort", which is not stable: rows with equal keys come out in
    an order that numpy's argsort derives from the key column and that
    is not the order of the input in general.  That order is a
    parameter here.  A [TieOrder] gives, for a key column, a code of
    positions; [arrange] puts the rows in the arrangement the code
    names, and a stable sort of the arranged rows then gives the sorted
    frame.  Every arrangement has a code, so every sorted order of the
    rows can occur, and nothing but the key column decides which. *)

Record TieOrder : Type := {
  int64_ties : list Z -> list nat;     (* for a column of counts *)
  float64_ties : list Q -> list nat    (* for a column of ranks *)
}.

(* x put at position n of l, at the end when l is shorter *)
Fixpoint insert_at {A : Type} (n : nat) (x : A) (l : list A) : list A :=
  match n, l with
  | O, _ => x :: l
  | S _, [] => [x]
  | S n', y :: l' => y :: insert_at n' x l'
  end.

(* The rows of l, each put at the position its code names among the
   rows after it; a missing code is 0, which leaves the row in place. *)
Fixpoint arrange {A : Type} (code : list nat) (l : list A) : list A :=
  match l with
  | [] => []
  | x :: l' => insert_at (hd O code) x (arrange (tl code) l')
  end.

(* ties left in the order of the input *)
Definition input_order : TieOrder :=
  {| int64_ties := fun _ => []; float64_ties := fun _ => [] |}.

(* ties left in the reverse of the order of the input *)
Definition reverse_order : TieOrder :=
  {| int64_ties := fun keys => map (fun _ => List.length keys) keys;
     float64_ties := fun keys => map (fun _ => List.length keys) keys |}.

(** ** The pandas operations the script calls *)

Module pd.

(* Series.isin(values), one element *)
Definition isin {K : Type} `{Key K} (x : K) (values : list K) : bool :=
  existsb (key_eqb x) values.

(* Series.unique(): distinct values in order of first appearance *)
Fixpoint unique {K : Type} `{Key K} (col : list K) : list K :=
  match col with
  | [] => []
  | x :: rest => x :: filter (fun y => negb (key_eqb x y)) (unique rest)
  end.

(* Series.nunique() *)
Definition nunique {K : Type} `{Key K} (col : list K) : Z :=
  Z.of_nat (List.length (unique col)).

(* number of entries of a column equal to k *)
Definition occurrences {K : Type} `{Key K} (k : K) (col : list K) : Z :=
  Z.of_nat (List.length (filter (key_eqb k) col)).

(* df.groupby(by).size().reset_index(name=...): one row per group key
   that occurs, keys in sorted order, with the number of rows of the
   group. *)
Definition groupby_size {R K : Type} `{Key K} (by_ : R -> K) (df : list R)
  : list (K * Z) :=
  map (fun k => (k, occurrences k (map by_ df)))
      (sort_by key_leb (unique (map by_ df))).

(* Series.value_counts(): one entry per distinct value, counted in
   order of first appearance and then sorted by descending count with
   the default sort kind: entries with equal counts come in the order
   [ties] gives for the column of counts. *)
Definition value_counts {K : Type} `{Key K} (ties : TieOrder) (col : list K)
  : list (K * Z) :=
  let counts := map (fun k => (k, occurrences k col)) (unique col) in
  sort_by (fun a b => snd b <=? snd a)
          (arrange (int64_ties ties (map snd counts)) counts).

(* .head(n) *)
Definition head {A : Type} (n : nat) (l : list A) : list A := firstn n l.

(* Series.rank(ascending=False) with the default method "average":
   the values are put in descending order and a value gets the mean of
   the positions taken by the values equal to it.  With g values
   strictly greater and e values equal (itself included) these are the
   positions g+1 .. g+e, whose mean is g + (e+1)/2. *)
Definition count_gt (x : Z) (col : list Z) : Z :=
  Z.of_nat (List.length (filter (fun y => x <? y) col)).

Definition count_eq (x : Z) (col : list Z) : Z :=
  Z.of_nat (List.length (filter (fun y => y =? x) col)).

Definition rank_desc (col : list Z) (x : Z) : Q :=
  Qmake (2 * count_gt x col + count_eq x col + 1) 2.

(* df.sort_values(by, ascending=False) with the default sort kind: rows
   with equal values come in the order [ties] gives for the column. *)
Definition sort_values_desc {R : Type} (ties : TieOrder) (by_ : R -> Q)
    (df : list R) : list R :=
  sort_by (fun a b => Qle_bool (by_ b) (by_ a))
          (arrange (float64_ties ties (map by_ df)) df).

(* .iloc[0] and .index[0] *)
Definition iloc0 {A : Type} (l : list A) : result A :=
  match l with
  | [] => Raise IndexError
  | x :: _ => Ok x
  end.

End pd.

(** ** Python built-ins used by the script *)

(* int(x) on a float: truncation toward zero *)
Definition int (q : Q) : Z := Z.quot (Qnum q) (Z.pos (Qden q)).

(* str(n) *)
Definition str (n : Z) : string := NilZero.string_of_int (Z.to_int n).

Definition is_upper (c : ascii) : bool :=
  (65 <=? nat_of_ascii c)%nat && (nat_of_ascii c <=? 90)%nat.

Definition is_lower (c : ascii) : bool :=
  (97 <=? nat_of_ascii c)%nat && (nat_of_ascii c <=? 122)%nat.

Definition to_upper (c : ascii) : ascii :=
  if is_lower c then ascii_of_nat (nat_of_ascii c - 32) else c.

Definition to_lower (c : ascii) : ascii :=
  if is_upper c then ascii_of_nat (nat_of_ascii c + 32) else c.

(* s.replace("_", " ") *)
Fixpoint replace_underscore (s : string) : string :=
  match s with
  | EmptyString => EmptyString
  | String c s' =>
      String (if Ascii.eqb c "_" then " "%char else c) (replace_underscore s')
  end.

(* s.title() on ASCII labels: a letter that follows a letter is lowered,
   any other letter is raised. *)
Fixpoint title_from (previous_is_cased : bool) (s : string) : string :=
  match s with
  | EmptyString => EmptyString
  | String c s' =>
      String (if previous_is_cased then to_lower c else to_upper c)
             (title_from (is_upper c || is_lower c) s')
  end.

Definition title (s : string) : string := title_from false s.

(** ** Streamlit widgets *)

(* st.selectbox(label, options): the option the user picked, the first
   option when nothing else is picked, None when there is no option.
   [picked] is the position held by the widget. *)
Definition selectbox {A : Type} (options : list A) (picked : nat) : option A :=
  match nth_error options picked with
  | Some x => Some x
  | None => hd_error options
  end.

(** ** The corpus *)

(* One article.  Every field is present: the corpus has no missing
   values. *)
Record Row : Type := {
  source : string;
  topic_name : string;
  election_period : string;
  date : Z;               (* parsed timestamp *)
  article_id : Z;
  text_clean : string
}.

Definition DataFrame : Type := list Row.

(** ** Sidebar filter (lines 79-83) *)

Definition df_filt (df : DataFrame)
    (selected_sources selected_topics selected_period : list string)
  : DataFrame :=
  filter (fun r => pd.isin (source r) selected_sources
                   && pd.isin (topic_name r) selected_topics
                   && pd.isin (election_period r) selected_period) df.

(** ** Left column: metrics and election shift (lines 99-136) *)

(* rank = df_filt.groupby(["election_period", "topic_name"]).size()
                 .reset_index(name="n") *)
Definition rank (df_filt : DataFrame) : list ((string * string) * Z) :=
  pd.groupby_size (fun r => (election_period r, topic_name r)) df_filt.

(* {"pre_election", "post_election"} <= set(rank["election_period"]) *)
Definition both_periods (rank : list ((string * string) * Z)) : bool :=
  pd.isin "pre_election" (map (fun g => fst (fst g)) rank)
  && pd.isin "post_election" (map (fun g => fst (fst g)) rank).

(* One cell of rank.pivot(index="topic_name", columns="election_period",
   values="n").fillna(0): the count of the (period, topic) group, and 0
   where the pivot has no entry. *)
Definition pivot_cell (rank : list ((string * string) * Z))
    (period topic : string) : Z :=
  match find (fun g => key_eqb (fst g) (period, topic)) rank with
  | Some g => snd g
  | None => 0
  end.

(* A row of the pivot table.  The table has one column for each period
   of [rank]; the script reads these two only. *)
Record PivotRow : Type := {
  pv_topic : string;        (* the index *)
  pre_election : Z;
  post_election : Z
}.

(* The pivot is indexed by the topic names of [rank], sorted. *)
Definition pivot (rank : list ((string * string) * Z)) : list PivotRow :=
  map (fun t => {| pv_topic := t;
                   pre_election := pivot_cell rank "pre_election" t;
                   post_election := pivot_cell rank "post_election" t |})
      (sort_by key_leb (pd.unique (map (fun g => snd (fst g)) rank))).

(* The pivot with the three columns the script adds (lines 124-126). *)
Record RankedRow : Type := {
  row : PivotRow;
  rank_pre : Q;
  rank_post : Q;
  rank_change : Q
}.

Definition add_ranks (pivot : list PivotRow) : list RankedRow :=
  map (fun r =>
         let rank_pre := pd.rank_desc (map pre_election pivot) (pre_election r) in
         let rank_post := pd.rank_desc (map post_election pivot) (post_election r) in
         {| row := r;
            rank_pre := rank_pre;
            rank_post := rank_post;
            rank_change := (rank_pre - rank_post)%Q |})
      pivot.

(* top_mover = pivot.sort_values("rank_change", ascending=False).head(1) *)
Definition top_mover (ties : TieOrder) (ranked : list RankedRow)
  : list RankedRow :=
  pd.head 1 (pd.sort_values_desc ties rank_change ranked).

(* What the "Election shift" block shows. *)
Inductive Shift : Type :=
| BiggestRiser (topic : string) (delta : Z)   (* st.metric("Biggest riser", ...) *)
| SelectBoth.                                  (* st.info("Select both ...") *)

Definition election_shift (ties : TieOrder) (df_filt : DataFrame)
  : result Shift :=
  let rank := rank df_filt in
  if both_periods rank then
    let top := top_mover ties (add_ranks (pivot rank)) in
    topic <- pd.iloc0 (map (fun r => pv_topic (row r)) top) ;;
    change <- pd.iloc0 (map rank_change top) ;;
    Ok (BiggestRiser topic (int change))
  else
    Ok SelectBoth.

(* The two strings st.metric is given for a riser (lines 132-133). *)
Definition metric_value (topic : string) : string :=
  title (replace_underscore topic).

Definition metric_delta (delta : Z) : string := ("+" ++ str delta)%string.

(* What the block hands to Streamlit. *)
Inductive Widget : Type :=
| Metric (label value delta : string)
| Info (body : string).

Definition render_shift (s : Shift) : Widget :=
  match s with
  | BiggestRiser topic delta =>
      Metric "Biggest riser" (metric_value topic) (metric_delta delta)
  | SelectBoth => Info "Select both pre- and post-election periods."
  end.

(** ** Centre column: time series and heatmap (lines 141-197) *)

(* df_filt["topic_name"].value_counts().head(k).index *)
Definition top_k (ties : TieOrder) (k : nat) (df_filt : DataFrame)
  : list (string * Z) :=
  pd.head k (pd.value_counts ties (map topic_name df_filt)).

Definition top_topics (ties : TieOrder) (df_filt : DataFrame) : list string :=
  map fst (top_k ties 6 df_filt).

Definition time_df (ties : TieOrder) (df_filt : DataFrame)
  : list ((Z * string) * Z) :=
  pd.groupby_size (fun r => (date r, topic_name r))
    (filter (fun r => pd.isin (topic_name r) (top_topics ties df_filt)) df_filt).

Definition heat_df (df_filt : DataFrame) : list ((string * string) * Z) :=
  pd.groupby_size (fun r => (source r, topic_name r)) df_filt.

(** ** Right column: top topics and article explorer (lines 202-244) *)

Definition top_topics_df (ties : TieOrder) (df_filt : DataFrame)
  : list (string * Z) :=
  top_k ties 10 df_filt.

(* column == value, where the value may be None *)
Definition eq_selected {K : Type} `{Key K} (x : K) (selected : option K) : bool :=
  match selected with
  | Some v => key_eqb x v
  | None => false
  end.

(* subset = df_filt[df_filt["topic_name"] == selected_topic] *)
Definition subset (df_filt : DataFrame) (selected_topic : option string)
  : DataFrame :=
  filter (fun r => eq_selected (topic_name r) selected_topic) df_filt.

(* subset.loc[subset["article_id"] == selected_id, "text_clean"].iloc[0] *)
Definition text (subset : DataFrame) (selected_id : option Z) : result string :=
  pd.iloc0 (map text_clean
              (filter (fun r => eq_selected (article_id r) selected_id) subset)).

(* The locator as a function of the active subset, a topic and an id. *)
Definition article_text (df_filt : DataFrame)
    (selected_topic : option string) (selected_id : option Z) : result string :=
  text (subset df_filt selected_topic) selected_id.

(* The article explorer with its two select boxes. *)
Definition article_explorer (df_filt : DataFrame) (picked_topic picked_id : nat)
  : result string :=
  let selected_topic :=
    selectbox (pd.unique (map topic_name df_filt)) picked_topic in
  let subset := subset df_filt selected_topic in
  let selected_id := selectbox (map article_id subset) picked_id in
  text subset selected_id.

(** ** One run of the script *)

Record Page : Type := {
  articles : Z;
  topics : Z;
  organisations : Z;
  shift : Widget;
  line_chart : list ((Z * string) * Z);
  heatmap : list ((string * string) * Z);
  top_table : list (string * Z);
  text_area : string
}.

Definition dashboard (ties : TieOrder) (df : DataFrame)
    (selected_sources selected_topics selected_period : list string)
    (picked_topic picked_id : nat) : result Page :=
  let df_filt := df_filt df selected_sources selected_topics selected_period in
  shift <- election_shift ties df_filt ;;
  text <- article_explorer df_filt picked_topic picked_id ;;
  Ok {| articles := Z.of_nat (List.length df_filt);
        topics := pd.nunique (map topic_name df_filt);
        organisations := pd.nunique (map source df_filt);
        shift := render_shift shift;
        line_chart := time_df ties df_filt;
        heatmap := heat_df df_filt;
        top_table := top_topics_df ties df_filt;
        text_area := text |}.

(** ** Sidebar (lines 58-77) *)

(* sorted(xs) *)
Definition sorted {K : Type} `{Key K} (xs : list K) : list K :=
  sort_by key_leb xs.

(* The options of the three multiselects.  Each list is also the
   default of its widget, so it is the selection of a fresh run. *)
Definition source_options (df : DataFrame) : list string :=
  sorted (pd.unique (map source df)).

Definition topic_options (df : DataFrame) : list string :=
  sorted (pd.unique (map topic_name df)).

Definition period_options (df : DataFrame) : list string :=
  pd.unique (map election_period df).

(** ** The example corpus of the specification

    10 "curriculum" and 2 "funding" articles before the election,
    3 "curriculum" and 9 "funding" after it. *)

Definition article (topic period : string) (id : Z) : Row :=
  {| source := "dfe"; topic_name := topic; election_period := period;
     date := 0; article_id := id; text_clean := "" |}.

(* n articles with ids first, first + 1, ... *)
Definition articles_of (topic period : string) (first : nat) (n : nat)
  : DataFrame :=
  map (fun i => article topic period (Z.of_nat i)) (seq first n).

Definition example_df : DataFrame :=
  articles_of "curriculum" "pre_election" 1 10
  ++ articles_of "funding" "pre_election" 11 2
  ++ articles_of "curriculum" "post_election" 13 3
  ++ articles_of "funding" "post_election" 16 9.

(** ** Vocabulary of the properties *)

Class KeyLaws (K : Type) `{Key K} : Prop := {
  key_eqb_eq : forall a b : K, key_eqb a b = true <-> a = b
}.

(* a row passes the three tests of the filter *)
Definition selected (ss ts ps : list string) (r : Row) : Prop :=
  In (source r) ss /\ In (topic_name r) ts /\ In (election_period r) ps.

Definition selected_dec (ss ts ps : list string) (r : Row) :
  {selected ss ts ps r} + {~ selected ss ts ps r}.
Proof.
  unfold selected.
  destruct (in_dec string_dec (source r) ss);
  destruct (in_dec string_dec (topic_name r) ts);
  destruct (in_dec string_dec (election_period r) ps); tauto.
Defined.

(* The brute-force scan: the number of rows passing all three tests. *)
Fixpoint scan_count (ss ts ps : list string) (df : DataFrame) : nat :=
  match df with
  | [] => 0
  | r :: df' =>
      (if selected_dec ss ts ps r then 1 else 0) + scan_count ss ts ps df'
  end.

Definition period_topic (r : Row) : string * string :=
  (election_period r, topic_name r).

Definition date_topic (r : Row) : Z * string := (date r, topic_name r).

(* both periods of the election shift occur in the frame *)
Definition has_both (df : DataFrame) : Prop :=
  In "pre_election" (map election_period df)
  /\ In "post_election" (map election_period df).

(* the number of rows of a frame with a given period and topic *)
Definition n_articles (df : DataFrame) (period topic : string) : Z :=
  Z.of_nat (List.length
    (filter (fun r => String.eqb (election_period r) period
                      && String.eqb (topic_name r) topic) df)).

(* the number of rows of a frame with a given date and topic *)
Definition n_dated (df : DataFrame) (d : Z) (t : string) : Z :=
  Z.of_nat (List.length
    (filter (fun r => (date r =? d) && String.eqb (topic_name r) t) df)).

(* the number of rows of a frame with a given topic *)
Definition topic_count (df : DataFrame) (t : string) : Z :=
  pd.occurrences t (map topic_name df).

(* the count mapping before it is sorted: topics in order of first
   appearance in the rows *)
Definition counts_by_appearance (df : DataFrame) : list (string * Z) :=
  map (fun t => (t, topic_count df t)) (pd.unique (map topic_name df)).

(* the rows a lookup matches *)
Definition matching (df : DataFrame) (selected_topic : option string)
    (selected_id : option Z) : DataFrame :=
  filter (fun r => eq_selected (article_id r) selected_id)
         (filter (fun r => eq_selected (topic_name r) selected_topic) df).

Definition sum_Z (l : list Z) : Z := fold_right Z.add 0 l.

Definition sum_Q (l : list Q) : Q := fold_right Qplus 0%Q l.

Definition count_lt (x : Z) (col : list Z) : Z :=
  Z.of_nat (List.length (filter (fun y => y <? x) col)).

(* twice the rank, an integer *)
Definition rank2 (col : list Z) (x : Z) : Z :=
  2 * pd.count_gt x col + pd.count_eq x col + 1.

(* the order of group keys is a total order *)
Class KeyOrder (K : Type) `{Key K} : Prop := {
  key_leb_total : forall a b : K, key_leb a b = true \/ key_leb b a = true;
  key_leb_trans : forall a b c : K,
    key_leb a b = true -> key_leb b c = true -> key_leb a c = true;
  key_leb_antisym : forall a b : K,
    key_leb a b = true -> key_leb b a = true -> a = b
}.

Definition source_topic (r : Row) : string * string :=
  (source r, topic_name r).

(* the number of rows of a frame with a given source and topic *)
Definition n_sourced (df : DataFrame) (s t : string) : Z :=
  Z.of_nat (List.length
    (filter (fun r => String.eqb (source r) s
                      && String.eqb (topic_name r) t) df)).

(* the number of rows of a frame with a given election period *)
Definition n_period (df : DataFrame) (p : string) : Z :=
  Z.of_nat (List.length
    (filter (fun r => String.eqb (election_period r) p) df)).

(* the number of rows of a frame whose topic is one of the top six *)
Definition n_top_six (ties : TieOrder) (df : DataFrame) : Z :=
  Z.of_nat (List.length
    (filter (fun r => pd.isin (topic_name r) (top_topics ties df)) df)).

(* every character of a string is an ASCII character *)
Fixpoint is_ascii_string (s : string) : bool :=
  match s with
  | EmptyString => true
  | String c s' => (nat_of_ascii c <? 128)%nat && is_ascii_string s'
  end.

(* a character of a string *)
Fixpoint has_char (c : ascii) (s : string) : bool :=
  match s with
  | EmptyString => false
  | String c' s' => Ascii.eqb c c' || has_char c s'
  end.

(** ** Further example frames *)

(* two topics tied before the election *)
Definition tie_df : DataFrame :=
  [ article "a" "pre_election" 1; article "b" "pre_election" 2;
    article "a" "post_election" 3; article "a" "post_election" 4;
    article "b" "post_election" 5 ].

(* its two rows once ranked: 3/2 and 3/2 before, 1 and 2 after *)
Definition tie_a : RankedRow :=
  {| row := {| pv_topic := "a"; pre_election := 1; post_election := 2 |};
     rank_pre := 3 # 2; rank_post := 2 # 2;
     rank_change := ((3 # 2) - (2 # 2))%Q |}.

Definition tie_b : RankedRow :=
  {| row := {| pv_topic := "b"; pre_election := 1; post_election := 1 |};
     rank_pre := 3 # 2; rank_post := 4 # 2;
     rank_change := ((3 # 2) - (4 # 2))%Q |}.

(* a topic that occurs under a third period only *)
Definition campaign_df : DataFrame :=
  [ article "a" "pre_election" 1; article "a" "post_election" 2;
    article "b" "campaign" 3 ].

(* one topic, equally placed before and after *)
Definition steady_df : DataFrame :=
  [ article "a" "pre_election" 1; article "a" "post_election" 2 ].

(* two topics tied after the election *)
Definition tie_after_df : DataFrame :=
  [ article "a" "pre_election" 1; article "a" "pre_election" 2;
    article "b" "pre_election" 3; article "a" "post_election" 4;
    article "b" "post_election" 5 ].

(* four topics, two pairs of equal counts *)
Definition pairs_df : DataFrame :=
  [ article "c" "pre_election" 1; article "c" "pre_election" 2;
    article "d" "pre_election" 3; article "d" "pre_election" 4;
    article "a" "pre_election" 5; article "b" "pre_election" 6 ].

(* the same two articles in either order *)
Definition ab_df : DataFrame :=
  [ article "a" "pre_election" 1; article "b" "pre_election" 2 ].

Definition ba_df : DataFrame :=
  [ article "b" "pre_election" 2; article "a" "pre_election" 1 ].

(** * Properties *)

(** ** The example corpus *)

Example example_shift :
  election_shift input_order example_df = Ok (BiggestRiser "funding" 1).
Proof. vm_compute. reflexivity. Qed.

Example example_metric :
  bind (election_shift input_order example_df) (fun s => Ok (render_shift s))
  = Ok (Metric "Biggest riser" "Funding" "+1").
Proof. vm_compute. reflexivity. Qed.

Example example_title :
  metric_value "school_funding" = "School Funding"
  /\ metric_value "SEND reform" = "Send Reform".
Proof. vm_compute. split; reflexivity. Qed.

(** ** Laws of group keys *)

#[export] Instance string_KeyLaws : KeyLaws string.
Proof. constructor. intros a b. apply String.eqb_eq. Qed.

#[export] Instance Z_KeyLaws : KeyLaws Z.
Proof. constructor. intros a b. apply Z.eqb_eq. Qed.

#[export] Instance pair_KeyLaws {A B : Type} `{KeyLaws A} `{KeyLaws B} :
  KeyLaws (A * B).
Proof.
  constructor. intros [a1 b1] [a2 b2]. simpl.
  rewrite andb_true_iff, !key_eqb_eq.
  split; [intros [-> ->]; reflexivity | intros E; inversion E; auto].
Qed.

Lemma key_eqb_refl {K : Type} `{KeyLaws K} (a : K) : key_eqb a a = true.
Proof. apply key_eqb_eq. reflexivity. Qed.

Lemma key_eqb_sym_bool {K : Type} `{KeyLaws K} (a b : K) :
  key_eqb a b = key_eqb b a.
Proof.
  destruct (key_eqb b a) eqn:E.
  - apply key_eqb_eq in E. subst. apply key_eqb_refl.
  - destruct (key_eqb a b) eqn:E'; [|reflexivity].
    apply key_eqb_eq in E'. subst. rewrite key_eqb_refl in E. discriminate.
Qed.

Lemma key_eqb_neq {K : Type} `{KeyLaws K} (a b : K) :
  key_eqb a b = false <-> a <> b.
Proof.
  rewrite <- key_eqb_eq. destruct (key_eqb a b); split; congruence.
Qed.

(** ** Insertion sort *)

Section SortingFacts.
Context {A : Type}.
Variable leb : A -> A -> bool.

Lemma insert_by_perm (x : A) (l : list A) :
  Permutation (insert_by leb x l) (x :: l).
Proof.
  induction l as [|y l IH]; simpl.
  - reflexivity.
  - destruct (leb x y).
    + reflexivity.
    + rewrite IH. apply perm_swap.
Qed.

Lemma sort_by_perm (l : list A) : Permutation (sort_by leb l) l.
Proof.
  induction l as [|x l IH]; simpl.
  - constructor.
  - rewrite insert_by_perm. constructor. exact IH.
Qed.

Lemma sort_by_In (l : list A) (x : A) : In x (sort_by leb l) <-> In x l.
Proof.
  split; apply Permutation_in;
    [apply sort_by_perm | symmetry; apply sort_by_perm].
Qed.

Lemma sort_by_length (l : list A) :
  List.length (sort_by leb l) = List.length l.
Proof. apply Permutation_length, sort_by_perm. Qed.

Lemma sort_by_nil_inv (l : list A) : sort_by leb l = [] -> l = [].
Proof.
  intros E. apply Permutation_nil. rewrite <- E. apply sort_by_perm.
Qed.

Hypothesis leb_total : forall x y, leb x y = true \/ leb y x = true.
Hypothesis leb_trans :
  forall x y z, leb x y = true -> leb y z = true -> leb x z = true.

Lemma insert_by_sorted (x : A) (l : list A) :
  StronglySorted (fun a b => leb a b = true) l ->
  StronglySorted (fun a b => leb a b = true) (insert_by leb x l).
Proof.
  induction 1 as [|y l Hs IH Hy]; simpl.
  - repeat constructor.
  - destruct (leb x y) eqn:Exy.
    + constructor; [constructor; assumption|].
      constructor; [exact Exy|].
      rewrite Forall_forall in *. intros z Hz.
      apply (leb_trans x y z Exy (Hy z Hz)).
    + constructor; [exact IH|].
      rewrite Forall_forall in *. intros z Hz.
      apply (Permutation_in _ (insert_by_perm x l)) in Hz.
      destruct Hz as [<-|Hz]; [|auto].
      destruct (leb_total x y) as [E|E]; congruence.
Qed.

Lemma sort_by_sorted (l : list A) :
  StronglySorted (fun a b => leb a b = true) (sort_by leb l).
Proof.
  induction l as [|x l IH]; simpl.
  - constructor.
  - apply insert_by_sorted, IH.
Qed.
End SortingFacts.

(** ** Arrangements of tied rows *)

Lemma insert_at_perm {A : Type} (n : nat) (x : A) (l : list A) :
  Permutation (insert_at n x l) (x :: l).
Proof.
  revert n. induction l as [|y l IH]; intros [|n]; simpl; try reflexivity.
  rewrite IH. apply perm_swap.
Qed.

Lemma arrange_perm {A : Type} (code : list nat) (l : list A) :
  Permutation (arrange code l) l.
Proof.
  revert code. induction l as [|x l IH]; intros code; simpl.
  - constructor.
  - rewrite insert_at_perm. constructor. apply IH.
Qed.

Lemma arrange_In {A : Type} (code : list nat) (l : list A) (x : A) :
  In x (arrange code l) <-> In x l.
Proof.
  split; apply Permutation_in;
    [apply arrange_perm | symmetry; apply arrange_perm].
Qed.

Lemma arrange_nil_inv {A : Type} (code : list nat) (l : list A) :
  arrange code l = [] -> l = [].
Proof.
  intros E. apply Permutation_nil. rewrite <- E. apply arrange_perm.
Qed.

Lemma insert_at_nil {A : Type} (n : nat) (x : A) : insert_at n x [] = [x].
Proof. destruct n; reflexivity. Qed.

Lemma arrange_one {A : Type} (code : list nat) (a : A) : arrange code [a] = [a].
Proof. simpl. apply insert_at_nil. Qed.

(* A code either keeps every pair of rows or swaps every pair. *)
Lemma arrange_two (code : list nat) :
  (forall (A : Type) (a b : A), arrange code [a; b] = [a; b])
  \/ (forall (A : Type) (a b : A), arrange code [a; b] = [b; a]).
Proof.
  destruct (hd O code) as [|n] eqn:E; [left | right]; intros A a b; simpl;
    rewrite insert_at_nil, E; simpl; [reflexivity|].
  rewrite insert_at_nil. reflexivity.
Qed.

Lemma insert_at_middle {A : Type} (x : A) (l1 l2 : list A) :
  insert_at (List.length l1) x (l1 ++ l2) = l1 ++ x :: l2.
Proof.
  induction l1 as [|y l1 IH]; simpl.
  - destruct l2; reflexivity.
  - rewrite IH. reflexivity.
Qed.

(* Every order of the rows is the arrangement of some code. *)
Lemma arrange_complete {A : Type} (l l' : list A) :
  Permutation l l' -> exists code, arrange code l = l'.
Proof.
  revert l'. induction l as [|x l IH]; intros l' P.
  - apply Permutation_nil in P. subst. exists []. reflexivity.
  - assert (Hx : In x l') by (apply (Permutation_in _ P); left; reflexivity).
    apply in_split in Hx. destruct Hx as [l1 [l2 ->]].
    apply Permutation_cons_app_inv in P.
    destruct (IH _ P) as [code E].
    exists (List.length l1 :: code). simpl. rewrite E.
    apply insert_at_middle.
Qed.

Lemma sort_by_sorted_id {A : Type} (leb : A -> A -> bool) (l : list A) :
  StronglySorted (fun a b => leb a b = true) l -> sort_by leb l = l.
Proof.
  induction 1 as [|x l S IH F]; simpl; [reflexivity|].
  rewrite IH. destruct l as [|y l]; [reflexivity|].
  simpl. inversion F as [|? ? Hxy _]; subst. rewrite Hxy. reflexivity.
Qed.

(* Every sorted order of the rows is the outcome of the sort for some
   code: the parameter leaves out no behaviour of an unstable sort. *)
Lemma every_sorted_order_has_a_code {A : Type} (leb : A -> A -> bool)
    (l l' : list A) :
  Permutation l l' -> StronglySorted (fun a b => leb a b = true) l' ->
  exists code, sort_by leb (arrange code l) = l'.
Proof.
  intros P S. destruct (arrange_complete l l' P) as [code E].
  exists code. rewrite E. apply sort_by_sorted_id. exact S.
Qed.

(** ** pandas operations *)

Lemma isin_In {K : Type} `{KeyLaws K} (x : K) (values : list K) :
  pd.isin x values = true <-> In x values.
Proof.
  unfold pd.isin. rewrite existsb_exists. split.
  - intros [y [Hy E]]. apply key_eqb_eq in E. subst. exact Hy.
  - intros Hx. exists x. split; [exact Hx | apply key_eqb_refl].
Qed.

Lemma isin_not_In {K : Type} `{KeyLaws K} (x : K) (values : list K) :
  pd.isin x values = false <-> ~ In x values.
Proof.
  rewrite <- isin_In. destruct (pd.isin x values); split; congruence.
Qed.

Lemma unique_In {K : Type} `{KeyLaws K} (col : list K) (x : K) :
  In x (pd.unique col) <-> In x col.
Proof.
  induction col as [|a col IH]; simpl.
  - tauto.
  - rewrite filter_In, IH, negb_true_iff, key_eqb_neq.
    destruct (key_eqb a x) eqn:E.
    + apply key_eqb_eq in E. tauto.
    + apply key_eqb_neq in E. tauto.
Qed.

Lemma unique_NoDup {K : Type} `{KeyLaws K} (col : list K) :
  NoDup (pd.unique col).
Proof.
  induction col as [|a col IH]; simpl.
  - constructor.
  - constructor.
    + rewrite filter_In, negb_true_iff, key_eqb_neq. tauto.
    + apply NoDup_filter, IH.
Qed.

Lemma occurrences_pos {K : Type} `{KeyLaws K} (k : K) (col : list K) :
  0 < pd.occurrences k col <-> In k col.
Proof.
  unfold pd.occurrences. induction col as [|a col IH]; simpl.
  - split; [lia | tauto].
  - destruct (key_eqb k a) eqn:E; simpl.
    + apply key_eqb_eq in E. split; [auto | lia].
    + apply key_eqb_neq in E. rewrite IH. split; [auto | intros [?|?]; congruence].
Qed.

Lemma occurrences_nonneg {K : Type} `{Key K} (k : K) (col : list K) :
  0 <= pd.occurrences k col.
Proof. unfold pd.occurrences. lia. Qed.

Lemma groupby_size_In {R K : Type} `{KeyLaws K} (by_ : R -> K) (df : list R)
    (k : K) (n : Z) :
  In (k, n) (pd.groupby_size by_ df) <->
  In k (map by_ df) /\ n = pd.occurrences k (map by_ df).
Proof.
  unfold pd.groupby_size. rewrite in_map_iff. split.
  - intros [k' [E Hk]]. inversion E; subst.
    rewrite sort_by_In, unique_In in Hk. auto.
  - intros [Hk ->]. exists k. split; [reflexivity|].
    rewrite sort_by_In, unique_In. exact Hk.
Qed.

Lemma groupby_size_keys {R K : Type} `{KeyLaws K} (by_ : R -> K) (df : list R) :
  NoDup (map fst (pd.groupby_size by_ df)).
Proof.
  unfold pd.groupby_size. rewrite map_map. simpl. rewrite map_id.
  apply (Permutation_NoDup (l := pd.unique (map by_ df))).
  - symmetry. apply sort_by_perm.
  - apply unique_NoDup.
Qed.

(** ** Filter *)

Lemma df_filt_cons (r : Row) (df : DataFrame) (ss ts ps : list string) :
  df_filt (r :: df) ss ts ps =
  if selected_dec ss ts ps r then r :: df_filt df ss ts ps
  else df_filt df ss ts ps.
Proof.
  unfold df_filt at 1. simpl. fold (df_filt df ss ts ps).
  destruct (selected_dec ss ts ps r) as [[H1 [H2 H3]]|N].
  - apply isin_In in H1, H2, H3. rewrite H1, H2, H3. reflexivity.
  - destruct (pd.isin (source r) ss) eqn:E1;
    destruct (pd.isin (topic_name r) ts) eqn:E2;
    destruct (pd.isin (election_period r) ps) eqn:E3; simpl; try reflexivity.
    exfalso. apply N. unfold selected. rewrite <- !isin_In. auto.
Qed.

Lemma filter_is_empty_without_sources (df : DataFrame) (ts ps : list string) :
  df_filt df [] ts ps = [].
Proof.
  induction df as [|r df IH]; [reflexivity|].
  rewrite df_filt_cons.
  destruct (selected_dec [] ts ps r) as [[[] _]|_]. exact IH.
Qed.

(** C4.  The filter keeps exactly the rows whose source, topic and
    election period all belong to the matching selection, in their
    order and as often as they occur; the size of the result is the
    number of rows a scan finds to pass the three tests; and an empty
    selection in any position gives the empty frame. *)
Theorem filter_is_conjunctive_membership
    (df : DataFrame) (ss ts ps : list string) :
  (forall r, In r (df_filt df ss ts ps) <-> In r df /\ selected ss ts ps r)
  /\ (forall r df', df_filt (r :: df') ss ts ps =
                    if selected_dec ss ts ps r
                    then r :: df_filt df' ss ts ps
                    else df_filt df' ss ts ps)
  /\ List.length (df_filt df ss ts ps) = scan_count ss ts ps df
  /\ df_filt df [] ts ps = []
  /\ df_filt df ss [] ps = []
  /\ df_filt df ss ts [] = [].
Proof.
  split; [|split; [|split; [|split; [|split]]]].
  - intros r. unfold df_filt, selected.
    rewrite filter_In, !andb_true_iff, !isin_In. tauto.
  - intros r df'. apply df_filt_cons.
  - induction df as [|r df IH]; [reflexivity|].
    rewrite df_filt_cons. simpl.
    destruct (selected_dec ss ts ps r); simpl; rewrite IH; reflexivity.
  - induction df as [|r df IH]; [reflexivity|].
    rewrite df_filt_cons.
    destruct (selected_dec [] ts ps r) as [[[] _]|_]. exact IH.
  - induction df as [|r df IH]; [reflexivity|].
    rewrite df_filt_cons.
    destruct (selected_dec ss [] ps r) as [[_ [[] _]]|_]. exact IH.
  - induction df as [|r df IH]; [reflexivity|].
    rewrite df_filt_cons.
    destruct (selected_dec ss ts [] r) as [[_ [_ []]]|_]. exact IH.
Qed.

(** ** Grouped counts of the rank-shift block *)

Lemma rank_In (df : DataFrame) (p t : string) (n : Z) :
  In ((p, t), n) (rank df) <->
  In (p, t) (map period_topic df)
  /\ n = pd.occurrences (p, t) (map period_topic df).
Proof. unfold rank. apply groupby_size_In. Qed.

Lemma rank_periods (df : DataFrame) (p : string) :
  In p (map (fun g => fst (fst g)) (rank df)) <-> In p (map election_period df).
Proof.
  rewrite !in_map_iff. split.
  - intros [[[p' t] n] [E Hg]]. simpl in E. subst p'.
    apply rank_In in Hg. destruct Hg as [Hg _].
    apply in_map_iff in Hg. destruct Hg as [r [E Hr]].
    exists r. inversion E. auto.
  - intros [r [E Hr]].
    exists ((p, topic_name r), pd.occurrences (p, topic_name r) (map period_topic df)).
    split; [reflexivity|]. apply rank_In. split; [|reflexivity].
    apply in_map_iff. exists r. unfold period_topic. rewrite E. auto.
Qed.

Lemma rank_topics (df : DataFrame) (t : string) :
  In t (map (fun g => snd (fst g)) (rank df)) <-> In t (map topic_name df).
Proof.
  rewrite !in_map_iff. split.
  - intros [[[p t'] n] [E Hg]]. simpl in E. subst t'.
    apply rank_In in Hg. destruct Hg as [Hg _].
    apply in_map_iff in Hg. destruct Hg as [r [E Hr]].
    exists r. inversion E. auto.
  - intros [r [E Hr]].
    exists ((election_period r, t),
            pd.occurrences (election_period r, t) (map period_topic df)).
    split; [reflexivity|]. apply rank_In. split; [|reflexivity].
    apply in_map_iff. exists r. unfold period_topic. rewrite E. auto.
Qed.

Lemma both_periods_iff (df : DataFrame) :
  both_periods (rank df) = true <-> has_both df.
Proof.
  unfold both_periods, has_both.
  rewrite andb_true_iff, !isin_In, !rank_periods. tauto.
Qed.

Lemma find_groupby {R K : Type} `{KeyLaws K} (by_ : R -> K) (df : list R) (k : K) :
  match find (fun g => key_eqb (fst g) k) (pd.groupby_size by_ df) with
  | Some g => snd g
  | None => 0
  end = pd.occurrences k (map by_ df).
Proof.
  destruct (find _ _) as [[k' n]|] eqn:F.
  - apply find_some in F. destruct F as [Hin E]. simpl in E.
    apply key_eqb_eq in E. subst k'.
    apply groupby_size_In in Hin. simpl. tauto.
  - assert (N : ~ In k (map by_ df)).
    { intros Hk.
      assert (Hin : In (k, pd.occurrences k (map by_ df))
                       (pd.groupby_size by_ df))
        by (apply groupby_size_In; auto).
      pose proof (find_none _ _ F _ Hin) as E. simpl in E.
      rewrite key_eqb_refl in E. discriminate. }
    rewrite <- occurrences_pos in N.
    pose proof (occurrences_nonneg k (map by_ df)). lia.
Qed.

Lemma pivot_cell_rank (df : DataFrame) (p t : string) :
  pivot_cell (rank df) p t = pd.occurrences (p, t) (map period_topic df).
Proof. unfold pivot_cell, rank. apply find_groupby. Qed.

Lemma pivot_index (rk : list ((string * string) * Z)) :
  map pv_topic (pivot rk) =
  sort_by key_leb (pd.unique (map (fun g => snd (fst g)) rk)).
Proof. unfold pivot. rewrite map_map. simpl. apply map_id. Qed.

Lemma pivot_index_In (df : DataFrame) (t : string) :
  In t (map pv_topic (pivot (rank df))) <-> In t (map topic_name df).
Proof. rewrite pivot_index, sort_by_In, unique_In. apply rank_topics. Qed.

Lemma pivot_index_NoDup (rk : list ((string * string) * Z)) :
  NoDup (map pv_topic (pivot rk)).
Proof.
  rewrite pivot_index.
  apply (Permutation_NoDup (l := pd.unique (map (fun g => snd (fst g)) rk))).
  - symmetry. apply sort_by_perm.
  - apply unique_NoDup.
Qed.

Lemma pivot_row_In (df : DataFrame) (r : PivotRow) :
  In r (pivot (rank df)) ->
  In (pv_topic r) (map topic_name df)
  /\ pre_election r =
     pd.occurrences ("pre_election", pv_topic r) (map period_topic df)
  /\ post_election r =
     pd.occurrences ("post_election", pv_topic r) (map period_topic df).
Proof.
  intros Hr. split.
  - apply pivot_index_In. apply in_map. exact Hr.
  - unfold pivot in Hr. apply in_map_iff in Hr.
    destruct Hr as [t [<- _]]. simpl. rewrite !pivot_cell_rank. auto.
Qed.

Lemma pivot_length (df : DataFrame) :
  List.length (pivot (rank df)) = List.length (pd.unique (map topic_name df)).
Proof.
  rewrite <- (length_map pv_topic).
  apply Permutation_length, NoDup_Permutation.
  - apply pivot_index_NoDup.
  - apply unique_NoDup.
  - intros t. rewrite pivot_index_In, unique_In. tauto.
Qed.

Lemma pivot_nonempty (df : DataFrame) : df <> [] -> pivot (rank df) <> [].
Proof.
  intros Hdf E. apply (f_equal (@List.length _)) in E.
  rewrite pivot_length in E. destruct df as [|r df]; [congruence|].
  simpl in E. discriminate.
Qed.

(** ** The top mover *)

Lemma Qle_bool_total (x y : Q) : Qle_bool x y = true \/ Qle_bool y x = true.
Proof.
  rewrite !Qle_bool_iff. destruct (Qlt_le_dec y x) as [L|L]; auto.
  right. apply Qlt_le_weak. exact L.
Qed.

Lemma top_mover_max (ties : TieOrder) (ranked : list RankedRow) :
  ranked <> [] ->
  exists r, top_mover ties ranked = [r]
            /\ In r ranked
            /\ forall r', In r' ranked -> (rank_change r' <= rank_change r)%Q.
Proof.
  intros Hne. unfold top_mover, pd.head, pd.sort_values_desc.
  set (leb := fun a b : RankedRow => Qle_bool (rank_change b) (rank_change a)).
  set (arranged := arrange (float64_ties ties (map rank_change ranked)) ranked).
  assert (Hs := sort_by_sorted leb
                  (fun x y => Qle_bool_total (rank_change y) (rank_change x))).
  specialize (Hs (fun x y z Hxy Hyz =>
    proj2 (Qle_bool_iff _ _)
      (Qle_trans _ _ _ (proj1 (Qle_bool_iff _ _) Hyz)
                       (proj1 (Qle_bool_iff _ _) Hxy))) arranged).
  destruct (sort_by leb arranged) as [|r s] eqn:E.
  - apply sort_by_nil_inv, arrange_nil_inv in E. contradiction.
  - exists r. simpl. split; [reflexivity|].
    assert (Hin : forall x, In x ranked <-> In x (r :: s)).
    { intros x. rewrite <- E, sort_by_In. symmetry. apply arrange_In. }
    split; [apply Hin; left; reflexivity|].
    intros r' Hr'. apply Hin in Hr'. destruct Hr' as [<-|Hr'].
    + apply Qle_refl.
    + inversion Hs as [|? ? _ Hall]; subst.
      rewrite Forall_forall in Hall. apply Qle_bool_iff. apply (Hall r' Hr').
Qed.

Lemma election_shift_riser (ties : TieOrder) (df : DataFrame) :
  has_both df ->
  exists r, top_mover ties (add_ranks (pivot (rank df))) = [r]
            /\ In r (add_ranks (pivot (rank df)))
            /\ (forall r', In r' (add_ranks (pivot (rank df))) ->
                           (rank_change r' <= rank_change r)%Q)
            /\ election_shift ties df =
               Ok (BiggestRiser (pv_topic (row r)) (int (rank_change r))).
Proof.
  intros Hb.
  assert (Hne : add_ranks (pivot (rank df)) <> []).
  { unfold add_ranks. intros E. apply map_eq_nil in E. revert E.
    apply pivot_nonempty. destruct Hb as [Hb _].
    destruct df; [contradiction | discriminate]. }
  destruct (top_mover_max ties _ Hne) as [r [Et [Hin Hmax]]].
  exists r. repeat split; try assumption.
  unfold election_shift.
  apply both_periods_iff in Hb. rewrite Hb, Et. reflexivity.
Qed.

Lemma election_shift_of_top (ties : TieOrder) (df : DataFrame) (r : RankedRow) :
  has_both df ->
  top_mover ties (add_ranks (pivot (rank df))) = [r] ->
  election_shift ties df =
  Ok (BiggestRiser (pv_topic (row r)) (int (rank_change r))).
Proof.
  intros Hb Et. unfold election_shift.
  apply both_periods_iff in Hb. rewrite Hb, Et. reflexivity.
Qed.

(* Of two rows with different rank changes the greater is the top
   mover, whatever the order of ties; a single row is the top mover. *)
Lemma top_mover_of_two (ties : TieOrder) (a b : RankedRow) :
  (rank_change b < rank_change a)%Q ->
  top_mover ties [a; b] = [a] /\ top_mover ties [b; a] = [a].
Proof.
  intros L.
  assert (T : Qle_bool (rank_change b) (rank_change a) = true)
    by (apply Qle_bool_iff; lra).
  assert (F : Qle_bool (rank_change a) (rank_change b) = false).
  { destruct (Qle_bool (rank_change a) (rank_change b)) eqn:E; [|reflexivity].
    apply Qle_bool_iff in E. lra. }
  unfold top_mover, pd.head, pd.sort_values_desc. split.
  - destruct (arrange_two (float64_ties ties (map rank_change [a; b])))
      as [E|E]; rewrite E; simpl; rewrite ?T, ?F; reflexivity.
  - destruct (arrange_two (float64_ties ties (map rank_change [b; a])))
      as [E|E]; rewrite E; simpl; rewrite ?T, ?F; reflexivity.
Qed.

Lemma top_mover_of_one (ties : TieOrder) (a : RankedRow) :
  top_mover ties [a] = [a].
Proof.
  unfold top_mover, pd.head, pd.sort_values_desc.
  rewrite arrange_one. reflexivity.
Qed.

(* The election shift of a concrete frame whose pivot has two rows
   with different rank changes, or one row. *)
Ltac compute_ranked df :=
  let v := eval vm_compute in (add_ranks (pivot (rank df))) in
  change (add_ranks (pivot (rank df))) with v.

Ltac shift_of_small_frame ties df :=
  unfold election_shift;
  let b := eval vm_compute in (both_periods (rank df)) in
  change (both_periods (rank df)) with b; cbv iota zeta;
  compute_ranked df;
  match goal with
  | |- context [top_mover ties [?x]] => rewrite (top_mover_of_one ties x)
  | |- context [top_mover ties [?x; ?y]] =>
      first [ rewrite (proj1 (top_mover_of_two ties x y
                                ltac:(vm_compute; reflexivity)))
            | rewrite (proj2 (top_mover_of_two ties y x
                                ltac:(vm_compute; reflexivity))) ]
  end.

Lemma example_shift_any_order (ties : TieOrder) :
  election_shift ties example_df = Ok (BiggestRiser "funding" 1).
Proof. shift_of_small_frame ties example_df. reflexivity. Qed.

Lemma tie_shift_any_order (ties : TieOrder) :
  election_shift ties tie_df = Ok (BiggestRiser "a" 0)
  /\ top_mover ties (add_ranks (pivot (rank tie_df))) = [tie_a].
Proof.
  split.
  - shift_of_small_frame ties tie_df. reflexivity.
  - compute_ranked tie_df.
    apply (top_mover_of_two ties tie_a tie_b). vm_compute. reflexivity.
Qed.

Lemma election_shift_info (ties : TieOrder) (df : DataFrame) :
  ~ has_both df -> election_shift ties df = Ok SelectBoth.
Proof.
  intros N. unfold election_shift.
  destruct (both_periods (rank df)) eqn:E; [|reflexivity].
  apply both_periods_iff in E. contradiction.
Qed.

Lemma has_both_dec (df : DataFrame) : {has_both df} + {~ has_both df}.
Proof.
  unfold has_both.
  destruct (in_dec string_dec "pre_election" (map election_period df));
  destruct (in_dec string_dec "post_election" (map election_period df)); tauto.
Defined.

(** C3.  The election-shift block shows the "select both periods" notice
    exactly when "pre_election" or "post_election" is missing from the
    election periods of the filtered frame, whatever other periods it
    holds; with both present it shows a biggest riser; it never raises;
    and on the empty frame it shows the notice. *)
Theorem insufficient_data_iff_period_missing (ties : TieOrder) (df : DataFrame) :
  (election_shift ties df = Ok SelectBoth <->
   ~ In "pre_election" (map election_period df)
   \/ ~ In "post_election" (map election_period df))
  /\ ((exists topic delta, election_shift ties df = Ok (BiggestRiser topic delta)) <->
      In "pre_election" (map election_period df)
      /\ In "post_election" (map election_period df))
  /\ election_shift ties [] = Ok SelectBoth.
Proof.
  split; [|split].
  - destruct (has_both_dec df) as [Hb|N].
    + destruct (election_shift_riser ties df Hb) as [r [_ [_ [_ E]]]].
      rewrite E. unfold has_both in Hb. split; [discriminate | tauto].
    + rewrite (election_shift_info ties df N). unfold has_both in N.
      split; [|reflexivity]. intros _.
      destruct (in_dec string_dec "pre_election" (map election_period df));
        tauto.
  - destruct (has_both_dec df) as [Hb|N].
    + destruct (election_shift_riser ties df Hb) as [r [_ [_ [_ E]]]].
      split; [intros _; exact Hb | intros _; eauto].
    + rewrite (election_shift_info ties df N).
      split; [intros [t [d E]]; discriminate | intros Hb; contradiction].
  - reflexivity.
Qed.

(** ** Average ranks *)

Ltac q_arith :=
  unfold pd.rank_desc, Qeq, Qle, Qlt, Qminus, Qplus, Qopp, Qdiv, Qmult, Qinv,
    inject_Z;
  cbn [Qnum Qden]; lia.

Lemma count_gt_cons (x a : Z) (col : list Z) :
  pd.count_gt x (a :: col) = (if x <? a then 1 else 0) + pd.count_gt x col.
Proof.
  unfold pd.count_gt. simpl. destruct (x <? a); simpl List.length; lia.
Qed.

Lemma count_eq_cons (x a : Z) (col : list Z) :
  pd.count_eq x (a :: col) = (if a =? x then 1 else 0) + pd.count_eq x col.
Proof.
  unfold pd.count_eq. simpl. destruct (a =? x); simpl List.length; lia.
Qed.

Lemma count_gt_nonneg (x : Z) (col : list Z) : 0 <= pd.count_gt x col.
Proof. unfold pd.count_gt. lia. Qed.

Lemma count_eq_nonneg (x : Z) (col : list Z) : 0 <= pd.count_eq x col.
Proof. unfold pd.count_eq. lia. Qed.

Lemma count_eq_pos (x : Z) (col : list Z) : In x col -> 1 <= pd.count_eq x col.
Proof.
  induction col as [|a col IH]; simpl; [tauto|].
  intros [->|Hx]; rewrite count_eq_cons.
  - rewrite Z.eqb_refl. pose proof (count_eq_nonneg x col). lia.
  - specialize (IH Hx). destruct (a =? x); lia.
Qed.

Lemma count_gt_eq_bound (x : Z) (col : list Z) :
  pd.count_gt x col + pd.count_eq x col <= Z.of_nat (List.length col).
Proof.
  induction col as [|a col IH].
  - unfold pd.count_gt, pd.count_eq. simpl. lia.
  - rewrite count_gt_cons, count_eq_cons. simpl List.length.
    destruct (Z.ltb_spec x a), (Z.eqb_spec a x); lia.
Qed.

Lemma count_gt_step (x y : Z) (col : list Z) :
  x < y -> pd.count_gt y col + pd.count_eq y col <= pd.count_gt x col.
Proof.
  intros Hxy. induction col as [|a col IH].
  - unfold pd.count_gt, pd.count_eq. simpl. lia.
  - rewrite !count_gt_cons, count_eq_cons.
    destruct (Z.ltb_spec y a), (Z.eqb_spec a y), (Z.ltb_spec x a); lia.
Qed.

Lemma rank_desc_mean (col : list Z) (x : Z) :
  (pd.rank_desc col x ==
   inject_Z (pd.count_gt x col) + (inject_Z (pd.count_eq x col) + 1) / 2)%Q.
Proof.
  q_arith.
Qed.

Lemma rank_desc_untied (col : list Z) (x : Z) :
  pd.count_eq x col = 1 ->
  (pd.rank_desc col x == inject_Z (1 + pd.count_gt x col))%Q.
Proof.
  intros E. q_arith.
Qed.

Lemma rank_desc_bounds (col : list Z) (x : Z) :
  In x col ->
  (1 <= pd.rank_desc col x)%Q
  /\ (pd.rank_desc col x <= inject_Z (Z.of_nat (List.length col)))%Q.
Proof.
  intros Hx.
  pose proof (count_eq_pos x col Hx).
  pose proof (count_gt_nonneg x col).
  pose proof (count_gt_eq_bound x col).
  split; q_arith.
Qed.

Lemma rank_desc_tied (col : list Z) (x y : Z) :
  x = y -> (pd.rank_desc col x == pd.rank_desc col y)%Q.
Proof. intros ->. reflexivity. Qed.

Lemma rank_desc_order (col : list Z) (x y : Z) :
  In x col -> x < y -> (pd.rank_desc col y < pd.rank_desc col x)%Q.
Proof.
  intros Hx Hxy.
  pose proof (count_eq_pos x col Hx).
  pose proof (count_eq_nonneg y col).
  pose proof (count_gt_step x y col Hxy).
  q_arith.
Qed.

Lemma add_ranks_In (pv : list PivotRow) (r : RankedRow) :
  In r (add_ranks pv) <->
  In (row r) pv
  /\ rank_pre r = pd.rank_desc (map pre_election pv) (pre_election (row r))
  /\ rank_post r = pd.rank_desc (map post_election pv) (post_election (row r))
  /\ rank_change r = (rank_pre r - rank_post r)%Q.
Proof.
  unfold add_ranks. rewrite in_map_iff. split.
  - intros [p [<- Hp]]. simpl. auto.
  - intros [Hp [E1 [E2 E3]]]. exists (row r). split; [|exact Hp].
    destruct r as [p a b c]. simpl in *. subst. reflexivity.
Qed.

Lemma add_ranks_rows (pv : list PivotRow) : map row (add_ranks pv) = pv.
Proof. unfold add_ranks. rewrite map_map. simpl. apply map_id. Qed.

(** ** The ranks of a column add up like the positions 1..N *)

Lemma count_lt_cons (x a : Z) (col : list Z) :
  count_lt x (a :: col) = (if a <? x then 1 else 0) + count_lt x col.
Proof.
  unfold count_lt. simpl. destruct (a <? x); simpl List.length; lia.
Qed.

Lemma count_trichotomy (x : Z) (col : list Z) :
  pd.count_gt x col + pd.count_eq x col + count_lt x col
  = Z.of_nat (List.length col).
Proof.
  induction col as [|a col IH].
  - reflexivity.
  - rewrite count_gt_cons, count_eq_cons, count_lt_cons. simpl List.length.
    destruct (Z.ltb_spec x a), (Z.eqb_spec a x), (Z.ltb_spec a x); lia.
Qed.

Lemma sum_rank2_cons (a : Z) (col xs : list Z) :
  sum_Z (map (rank2 (a :: col)) xs)
  = sum_Z (map (rank2 col) xs) + 2 * count_lt a xs + pd.count_eq a xs.
Proof.
  induction xs as [|x xs IH].
  - reflexivity.
  - cbn [map sum_Z fold_right]. fold (sum_Z (map (rank2 (a :: col)) xs)).
    fold (sum_Z (map (rank2 col) xs)).
    rewrite IH, count_lt_cons. unfold rank2.
    rewrite count_gt_cons, !count_eq_cons.
    destruct (Z.ltb_spec x a), (Z.eqb_spec a x), (Z.eqb_spec x a); lia.
Qed.

Lemma sum_rank2 (col : list Z) :
  sum_Z (map (rank2 col) col)
  = Z.of_nat (List.length col) * (Z.of_nat (List.length col) + 1).
Proof.
  induction col as [|a col IH].
  - reflexivity.
  - simpl map. simpl sum_Z. rewrite sum_rank2_cons, IH.
    unfold rank2 at 1. rewrite count_gt_cons, count_eq_cons.
    rewrite Z.ltb_irrefl, Z.eqb_refl.
    pose proof (count_trichotomy a col). simpl List.length. lia.
Qed.

Lemma sum_rank_desc (col xs : list Z) :
  (sum_Q (map (pd.rank_desc col) xs) == Qmake (sum_Z (map (rank2 col) xs)) 2)%Q.
Proof.
  induction xs as [|x xs IH]; simpl.
  - reflexivity.
  - rewrite IH. unfold rank2. q_arith.
Qed.

Lemma sum_rank_desc_all (col : list Z) :
  (sum_Q (map (pd.rank_desc col) col) ==
   inject_Z (Z.of_nat (List.length col) * (Z.of_nat (List.length col) + 1)) / 2)%Q.
Proof.
  rewrite sum_rank_desc, sum_rank2. q_arith.
Qed.

Lemma sum_Q_minus {A : Type} (f g : A -> Q) (l : list A) :
  (sum_Q (map (fun x => f x - g x) l) == sum_Q (map f l) - sum_Q (map g l))%Q.
Proof.
  induction l as [|x l IH]; simpl.
  - reflexivity.
  - rewrite IH. ring.
Qed.

Lemma sum_Q_nonpos (l : list Q) :
  (forall q, In q l -> (q <= 0)%Q) -> (sum_Q l <= 0)%Q.
Proof.
  induction l as [|x l IH]; simpl; intros H.
  - apply Qle_refl.
  - assert (Hx := H x (or_introl eq_refl)).
    assert (Hl := IH (fun q Hq => H q (or_intror Hq))). lra.
Qed.

Lemma sum_Q_zero_nonpos (l : list Q) :
  (forall q, In q l -> (q <= 0)%Q) -> (sum_Q l == 0)%Q ->
  forall q, In q l -> (q == 0)%Q.
Proof.
  induction l as [|x l IH]; simpl; intros H E q Hq; [contradiction|].
  assert (Hx := H x (or_introl eq_refl)).
  assert (Hl := sum_Q_nonpos l (fun q Hq => H q (or_intror Hq))).
  destruct Hq as [<-|Hq].
  - lra.
  - apply IH; auto. lra.
Qed.

Lemma map_rank_pre (pv : list PivotRow) :
  map rank_pre (add_ranks pv)
  = map (pd.rank_desc (map pre_election pv)) (map pre_election pv).
Proof. unfold add_ranks. rewrite !map_map. reflexivity. Qed.

Lemma map_rank_post (pv : list PivotRow) :
  map rank_post (add_ranks pv)
  = map (pd.rank_desc (map post_election pv)) (map post_election pv).
Proof. unfold add_ranks. rewrite !map_map. reflexivity. Qed.

Lemma sum_rank_change (pv : list PivotRow) :
  (sum_Q (map rank_change (add_ranks pv)) == 0)%Q.
Proof.
  assert (E : map rank_change (add_ranks pv)
              = map (fun r => (rank_pre r - rank_post r)%Q) (add_ranks pv)).
  { apply map_ext_in. intros r Hr. apply add_ranks_In in Hr. tauto. }
  rewrite E, sum_Q_minus, map_rank_pre, map_rank_post, !sum_rank_desc_all.
  rewrite !length_map. ring.
Qed.

(* The largest rank change is never negative, and it is zero only when
   every rank change is zero. *)
Lemma max_rank_change_nonneg (pv : list PivotRow) (r : RankedRow) :
  In r (add_ranks pv) ->
  (forall r', In r' (add_ranks pv) -> (rank_change r' <= rank_change r)%Q) ->
  (0 <= rank_change r)%Q
  /\ ((rank_change r <= 0)%Q ->
      forall r', In r' (add_ranks pv) -> (rank_change r' == 0)%Q).
Proof.
  intros Hr Hmax.
  assert (Hz : (rank_change r <= 0)%Q ->
               forall r', In r' (add_ranks pv) -> (rank_change r' == 0)%Q).
  { intros Hle r' Hr'.
    apply (sum_Q_zero_nonpos (map rank_change (add_ranks pv))).
    - intros q Hq. apply in_map_iff in Hq. destruct Hq as [x [<- Hx]].
      specialize (Hmax x Hx). lra.
    - apply sum_rank_change.
    - apply in_map. exact Hr'. }
  split; [|exact Hz].
  destruct (Qlt_le_dec (rank_change r) 0) as [L|L]; [|exact L].
  assert (E : (rank_change r == 0)%Q) by (apply Hz; [lra | exact Hr]). lra.
Qed.

(** ** Counts of the pivot *)

Lemma occurrences_period_topic (df : DataFrame) (p t : string) :
  pd.occurrences (p, t) (map period_topic df) = n_articles df p t.
Proof.
  unfold pd.occurrences, n_articles. f_equal.
  assert (E : forall r, key_eqb (p, t) (period_topic r)
                        = String.eqb (election_period r) p
                          && String.eqb (topic_name r) t).
  { intros r. simpl. rewrite (String.eqb_sym p), (String.eqb_sym t).
    reflexivity. }
  induction df as [|r df IH]; [reflexivity|].
  cbn [map filter]. rewrite E.
  destruct (_ && _); cbn [List.length]; rewrite IH; reflexivity.
Qed.

(** C1.  Within each of the two periods a topic's rank is its average
    rank by descending count: the number of topics with a strictly
    greater count plus half of one more than the number of topics with
    the same count.  Tied topics get the same rank; a topic that is tied
    with no other gets 1 plus the number of topics with a strictly
    greater count; a topic of rank 1 has the greatest count; every rank
    lies between 1 and N and the ranks of a period add up to N(N+1)/2,
    where N is the number of distinct topics of the filtered frame; and
    a topic with a smaller count never has a better rank. *)
Theorem ranks_are_average_ranks (df : DataFrame) (r r' : RankedRow)
    (Hr : In r (add_ranks (pivot (rank df))))
    (Hr' : In r' (add_ranks (pivot (rank df)))) :
  let pv := pivot (rank df) in
  let N := Z.of_nat (List.length pv) in
  let pre := map pre_election pv in
  let post := map post_election pv in
  N = pd.nunique (map topic_name df)
  /\ (rank_pre r == inject_Z (pd.count_gt (pre_election (row r)) pre)
                    + (inject_Z (pd.count_eq (pre_election (row r)) pre) + 1) / 2)%Q
  /\ (rank_post r == inject_Z (pd.count_gt (post_election (row r)) post)
                     + (inject_Z (pd.count_eq (post_election (row r)) post) + 1) / 2)%Q
  /\ (pd.count_eq (pre_election (row r)) pre = 1 ->
      (rank_pre r == inject_Z (1 + pd.count_gt (pre_election (row r)) pre))%Q)
  /\ (pd.count_eq (post_election (row r)) post = 1 ->
      (rank_post r == inject_Z (1 + pd.count_gt (post_election (row r)) post))%Q)
  /\ (1 <= rank_pre r /\ rank_pre r <= inject_Z N)%Q
  /\ (1 <= rank_post r /\ rank_post r <= inject_Z N)%Q
  /\ (pre_election (row r) = pre_election (row r') -> (rank_pre r == rank_pre r')%Q)
  /\ (post_election (row r) = post_election (row r') ->
      (rank_post r == rank_post r')%Q)
  /\ (pre_election (row r) < pre_election (row r') -> (rank_pre r' < rank_pre r)%Q)
  /\ (post_election (row r) < post_election (row r') ->
      (rank_post r' < rank_post r)%Q)
  /\ ((rank_pre r == 1)%Q -> pre_election (row r') <= pre_election (row r))
  /\ ((rank_post r == 1)%Q -> post_election (row r') <= post_election (row r))
  /\ (sum_Q (map rank_pre (add_ranks pv)) == inject_Z (N * (N + 1)) / 2)%Q
  /\ (sum_Q (map rank_post (add_ranks pv)) == inject_Z (N * (N + 1)) / 2)%Q.
Proof.
  intros pv N pre post.
  apply add_ranks_In in Hr, Hr'. fold pv in Hr, Hr'. fold pre post in Hr, Hr'.
  destruct Hr as [Hin [Epre [Epost _]]].
  destruct Hr' as [Hin' [Epre' [Epost' _]]].
  assert (Ipre : In (pre_election (row r)) pre) by (apply in_map; exact Hin).
  assert (Ipost : In (post_election (row r)) post) by (apply in_map; exact Hin).
  assert (Ipre' : In (pre_election (row r')) pre) by (apply in_map; exact Hin').
  assert (Ipost' : In (post_election (row r')) post) by (apply in_map; exact Hin').
  assert (Lpre : Z.of_nat (List.length pre) = N)
    by (unfold pre, N; rewrite length_map; reflexivity).
  assert (Lpost : Z.of_nat (List.length post) = N)
    by (unfold post, N; rewrite length_map; reflexivity).
  assert (Ord_pre : forall x y, In x pre -> x < y ->
                      (pd.rank_desc pre y < pd.rank_desc pre x)%Q)
    by (intros; apply rank_desc_order; assumption).
  assert (Ord_post : forall x y, In x post -> x < y ->
                       (pd.rank_desc post y < pd.rank_desc post x)%Q)
    by (intros; apply rank_desc_order; assumption).
  rewrite Epre, Epost, Epre', Epost'.
  repeat match goal with |- _ /\ _ => split end.
  - unfold N, pv, pd.nunique. rewrite pivot_length. reflexivity.
  - apply rank_desc_mean.
  - apply rank_desc_mean.
  - apply rank_desc_untied.
  - apply rank_desc_untied.
  - apply rank_desc_bounds, Ipre.
  - rewrite <- Lpre. apply rank_desc_bounds, Ipre.
  - apply rank_desc_bounds, Ipost.
  - rewrite <- Lpost. apply rank_desc_bounds, Ipost.
  - apply rank_desc_tied.
  - apply rank_desc_tied.
  - apply Ord_pre, Ipre.
  - apply Ord_post, Ipost.
  - intros E1. destruct (Z_lt_le_dec (pre_election (row r)) (pre_election (row r')))
      as [L|L]; [|exact L].
    pose proof (Ord_pre _ _ Ipre L) as O.
    pose proof (proj1 (rank_desc_bounds pre _ Ipre')) as B. lra.
  - intros E1. destruct (Z_lt_le_dec (post_election (row r)) (post_election (row r')))
      as [L|L]; [|exact L].
    pose proof (Ord_post _ _ Ipost L) as O.
    pose proof (proj1 (rank_desc_bounds post _ Ipost')) as B. lra.
  - unfold pre in *. rewrite map_rank_pre, sum_rank_desc_all, Lpre. reflexivity.
  - unfold post in *. rewrite map_rank_post, sum_rank_desc_all, Lpost. reflexivity.
Qed.

Lemma ranks_are_average_ranks_witness :
  In tie_a (add_ranks (pivot (rank tie_df)))
  /\ In tie_b (add_ranks (pivot (rank tie_df)))
  /\ (rank_pre tie_a == rank_pre tie_b)%Q
  /\ (rank_post tie_a < rank_post tie_b)%Q
  /\ (1 <= rank_pre tie_a /\ rank_pre tie_a <= 2)%Q.
Proof.
  assert (Ha : In tie_a (add_ranks (pivot (rank tie_df))))
    by (vm_compute; left; reflexivity).
  assert (Hb : In tie_b (add_ranks (pivot (rank tie_df))))
    by (vm_compute; right; left; reflexivity).
  split; [exact Ha|]. split; [exact Hb|].
  pose proof (ranks_are_average_ranks tie_df tie_a tie_b Ha Hb) as T.
  pose proof (ranks_are_average_ranks tie_df tie_b tie_a Hb Ha) as T'.
  cbv zeta in T, T'.
  split; [apply T; reflexivity|].
  split; [apply T'; vm_compute; reflexivity|].
  apply T.
Defined.

(** C1, as stated, fails: two topics tied for the first place both get
    rank 3/2, not 1 plus the number of topics with a greater count. *)
Lemma tied_topics_get_mean_rank :
  exists r, In r (add_ranks (pivot (rank tie_df)))
            /\ pv_topic (row r) = "a"
            /\ (rank_pre r == 3 # 2)%Q
            /\ ~ (rank_pre r ==
                  inject_Z (1 + pd.count_gt (pre_election (row r))
                                  (map pre_election (pivot (rank tie_df)))))%Q.
Proof.
  eexists. split; [vm_compute; left; reflexivity|].
  split; [reflexivity|]. split; [reflexivity|].
  vm_compute. discriminate.
Qed.

(** C5.  The pivot is indexed by the topics of the whole filtered frame,
    each once: the topics of "pre_election" and "post_election" rows and
    also those that occur under other periods only.  A row holds for
    each of the two periods the number of articles of its topic in that
    period, zero when there is none, and the ranks of both periods are
    computed over the columns of exactly these rows. *)
Theorem pivot_index_is_all_topics_of_subset (df : DataFrame) :
  let pv := pivot (rank df) in
  (forall t, In t (map pv_topic pv) <-> In t (map topic_name df))
  /\ NoDup (map pv_topic pv)
  /\ (forall r, In r pv ->
        pre_election r = n_articles df "pre_election" (pv_topic r)
        /\ post_election r = n_articles df "post_election" (pv_topic r))
  /\ (forall t, ~ In ("pre_election", t) (map period_topic df) ->
                n_articles df "pre_election" t = 0)
  /\ (forall t, ~ In ("post_election", t) (map period_topic df) ->
                n_articles df "post_election" t = 0)
  /\ map row (add_ranks pv) = pv
  /\ (forall r, In r (add_ranks pv) ->
        rank_pre r = pd.rank_desc (map pre_election pv) (pre_election (row r))
        /\ rank_post r
           = pd.rank_desc (map post_election pv) (post_election (row r))).
Proof.
  intros pv. unfold pv.
  assert (Z0 : forall p t, ~ In (p, t) (map period_topic df) ->
                           n_articles df p t = 0).
  { intros p t N. rewrite <- occurrences_period_topic.
    rewrite <- occurrences_pos in N.
    pose proof (occurrences_nonneg (p, t) (map period_topic df)). lia. }
  repeat match goal with |- _ /\ _ => split end.
  - apply pivot_index_In.
  - apply pivot_index_NoDup.
  - intros r Hr. apply pivot_row_In in Hr.
    rewrite <- !occurrences_period_topic. tauto.
  - intros t. apply Z0.
  - intros t. apply Z0.
  - apply add_ranks_rows.
  - intros r Hr. apply add_ranks_In in Hr. tauto.
Qed.

(** C5, as stated, fails: a topic whose only article lies in a third
    period is a row of the pivot, with zero in both columns, and is
    ranked, though neither of the two periods has it. *)
Lemma pivot_holds_topic_of_other_period :
  In "b" (map pv_topic (pivot (rank campaign_df)))
  /\ ~ In "b" (map topic_name
                 (filter (fun r => String.eqb (election_period r) "pre_election"
                                   || String.eqb (election_period r) "post_election")
                         campaign_df))
  /\ map (fun r => (pv_topic (row r), pre_election (row r), post_election (row r),
                    Qred (rank_pre r), Qred (rank_post r)))
         (add_ranks (pivot (rank campaign_df)))
     = [ ("a", 1, 1, 1%Q, 1%Q); ("b", 0, 0, 2%Q, 2%Q) ].
Proof.
  split; [vm_compute; right; left; reflexivity|].
  split; [vm_compute; intros [E|[E|[]]]; discriminate|].
  vm_compute. reflexivity.
Qed.

(** ** The number shown beside the riser *)

Lemma int_of_half (a b : Z) :
  b <= a ->
  let q := (Qmake a 2 - Qmake b 2)%Q in
  (q == inject_Z (int q))%Q \/ (q == inject_Z (int q) + (1 # 2))%Q.
Proof.
  intros Hab q. unfold q, int, Qminus, Qplus, Qopp. cbn [Qnum Qden].
  change (2 * 2)%positive with 4%positive.
  assert (E : a * 2 + - b * 2 = 2 * (a - b)) by lia. rewrite E.
  rewrite Z.quot_div_nonneg by lia.
  pose proof (Z.div_mod (2 * (a - b)) 4 ltac:(lia)) as D.
  pose proof (Z.mod_pos_bound (2 * (a - b)) 4 ltac:(lia)) as B.
  set (d := 2 * (a - b) / 4) in *. set (m := (2 * (a - b)) mod 4) in *.
  assert (Hm : m = 0 \/ m = 2) by lia.
  destruct Hm as [Hm|Hm]; [left | right];
    unfold Qeq, Qplus, inject_Z; cbn [Qnum Qden]; lia.
Qed.

Lemma int_zero (q : Q) : (q == 0)%Q -> int q = 0.
Proof.
  unfold Qeq, int. cbn [Qnum Qden]. intros E.
  assert (E0 : Qnum q = 0) by lia. rewrite E0. reflexivity.
Qed.

Lemma rank_change_halves (pv : list PivotRow) (r : RankedRow) :
  In r (add_ranks pv) ->
  (0 <= rank_change r)%Q ->
  (rank_change r == inject_Z (int (rank_change r)))%Q
  \/ (rank_change r == inject_Z (int (rank_change r)) + (1 # 2))%Q.
Proof.
  intros Hr Hpos. apply add_ranks_In in Hr.
  destruct Hr as [_ [Epre [Epost Ech]]].
  rewrite Ech, Epre, Epost in *. unfold pd.rank_desc in *.
  apply int_of_half.
  revert Hpos. unfold Qle, Qminus, Qplus, Qopp. cbn [Qnum Qden]. lia.
Qed.

(** C2.  With both periods in the filtered frame, a topic's rank change
    is its pre-election rank minus its post-election rank, and it is
    positive exactly when the topic moved toward rank 1.  The block
    shows the topic whose rank change is greatest, and beside it that
    rank change cut down to a whole number: the rank change itself when
    it is whole, half a place less when it is not.  On the example
    corpus the ranks are 1 and 2 before, 2 and 1 after, and the riser
    is "funding" with 1, shown as "Funding" and "+1". *)
Theorem biggest_riser_is_max_rank_change
    (ties : TieOrder) (df : DataFrame) (Hb : has_both df) :
  let ranked := add_ranks (pivot (rank df)) in
  (forall r, In r ranked ->
     rank_change r = (rank_pre r - rank_post r)%Q
     /\ ((0 < rank_change r)%Q <-> (rank_post r < rank_pre r)%Q))
  /\ (exists top,
        top_mover ties ranked = [top]
        /\ In top ranked
        /\ (forall r, In r ranked -> (rank_change r <= rank_change top)%Q)
        /\ election_shift ties df =
           Ok (BiggestRiser (pv_topic (row top)) (int (rank_change top)))
        /\ ((rank_change top == inject_Z (int (rank_change top)))%Q
            \/ (rank_change top == inject_Z (int (rank_change top)) + (1 # 2))%Q))
  /\ map (fun r => (pv_topic (row r), Qred (rank_pre r), Qred (rank_post r),
                    Qred (rank_change r)))
         (add_ranks (pivot (rank example_df)))
     = [ ("curriculum", 1%Q, 2%Q, (-1)%Q); ("funding", 2%Q, 1%Q, 1%Q) ]
  /\ election_shift ties example_df = Ok (BiggestRiser "funding" 1)
  /\ render_shift (BiggestRiser "funding" 1)
     = Metric "Biggest riser" "Funding" "+1".
Proof.
  intros ranked. split; [|split; [|split; [|split]]].
  - intros r Hr. apply add_ranks_In in Hr. destruct Hr as [_ [_ [_ E]]].
    split; [exact E|]. rewrite E. split; intros L; lra.
  - destruct (election_shift_riser ties df Hb) as [top [Et [Hin [Hmax E]]]].
    exists top. repeat split; try assumption.
    apply (rank_change_halves (pivot (rank df))); [exact Hin|].
    apply (max_rank_change_nonneg (pivot (rank df))); assumption.
  - vm_compute. reflexivity.
  - apply example_shift_any_order.
  - vm_compute. reflexivity.
Qed.

Lemma biggest_riser_is_max_rank_change_witness :
  has_both example_df
  /\ exists top,
       top_mover input_order (add_ranks (pivot (rank example_df))) = [top]
       /\ election_shift input_order example_df =
          Ok (BiggestRiser (pv_topic (row top)) (int (rank_change top))).
Proof.
  assert (Hb : has_both example_df).
  { unfold has_both. split.
    - vm_compute. left. reflexivity.
    - vm_compute. do 12 right. left. reflexivity. }
  split; [exact Hb|].
  destruct (biggest_riser_is_max_rank_change input_order example_df Hb)
    as [_ [[top [Et [_ [_ [E _]]]]] _]].
  exists top. split; [exact Et | exact E].
Defined.

(** C2, as stated, fails: with two topics tied before the election the
    greatest rank change is 1/2, and the number shown is 0, whatever
    the order of ties. *)
Lemma shown_magnitude_drops_half_places :
  exists top,
    top_mover input_order (add_ranks (pivot (rank tie_df))) = [top]
    /\ (rank_change top == 1 # 2)%Q
    /\ election_shift input_order tie_df = Ok (BiggestRiser "a" 0)
    /\ ~ (rank_change top == inject_Z 0)%Q
    /\ forall ties,
         top_mover ties (add_ranks (pivot (rank tie_df))) = [top]
         /\ election_shift ties tie_df = Ok (BiggestRiser "a" 0).
Proof.
  exists tie_a. split; [apply tie_shift_any_order|].
  split; [reflexivity|]. split; [apply tie_shift_any_order|].
  split; [vm_compute; discriminate|].
  intros ties. split; apply tie_shift_any_order.
Qed.

(** C10.  With both periods in the filtered frame the block always shows
    a riser: the topic of greatest rank change, with that rank change
    cut down to a whole number by int().  Nothing checks that the topic
    rose.  The greatest rank change is never negative; when it is zero
    no topic moved, and a topic is shown all the same, with 0. *)
Theorem riser_shown_even_when_none_rose
    (ties : TieOrder) (df : DataFrame) (Hb : has_both df) :
  let ranked := add_ranks (pivot (rank df)) in
  exists top,
    top_mover ties ranked = [top]
    /\ In top ranked
    /\ (forall r, In r ranked -> (rank_change r <= rank_change top)%Q)
    /\ election_shift ties df =
       Ok (BiggestRiser (pv_topic (row top)) (int (rank_change top)))
    /\ (0 <= rank_change top)%Q
    /\ ((rank_change top <= 0)%Q ->
        (forall r, In r ranked -> (rank_change r == 0)%Q)
        /\ election_shift ties df = Ok (BiggestRiser (pv_topic (row top)) 0)).
Proof.
  intros ranked.
  destruct (election_shift_riser ties df Hb) as [top [Et [Hin [Hmax E]]]].
  destruct (max_rank_change_nonneg (pivot (rank df)) top Hin Hmax) as [P Z0].
  exists top. repeat split; try assumption.
  - apply Z0. assumption.
  - rewrite E. rewrite (int_zero (rank_change top)); [reflexivity|].
    apply Z0; assumption.
Qed.

Lemma riser_shown_even_when_none_rose_witness :
  has_both steady_df
  /\ election_shift input_order steady_df = Ok (BiggestRiser "a" 0).
Proof.
  assert (Hb : has_both steady_df).
  { unfold has_both. split.
    - vm_compute. left. reflexivity.
    - vm_compute. right. left. reflexivity. }
  split; [exact Hb|].
  destruct (riser_shown_even_when_none_rose input_order steady_df Hb)
    as [top [Et [_ [_ [_ [_ Z0]]]]]].
  vm_compute in Et. injection Et as <-.
  apply Z0. vm_compute. discriminate.
Defined.

(** C10, as stated, fails: the number shown beside the riser is not its
    rank change where that ends in a half.  With two topics tied after
    the election the riser has rank change 1/2 and is shown with 0,
    whatever the order of ties. *)
Lemma riser_is_shown_with_whole_number :
  exists top,
    In top (add_ranks (pivot (rank tie_after_df)))
    /\ pv_topic (row top) = "b"
    /\ (rank_change top == 1 # 2)%Q
    /\ ~ (rank_change top == inject_Z 0)%Q
    /\ forall ties,
         top_mover ties (add_ranks (pivot (rank tie_after_df))) = [top]
         /\ election_shift ties tie_after_df = Ok (BiggestRiser "b" 0).
Proof.
  eexists.
  split; [vm_compute; right; left; reflexivity|].
  split; [reflexivity|]. split; [reflexivity|].
  split; [vm_compute; discriminate|].
  intros ties. split.
  - compute_ranked tie_after_df.
    match goal with |- top_mover ties [?x; ?y] = _ =>
      apply (proj2 (top_mover_of_two ties y x ltac:(vm_compute; reflexivity)))
    end.
  - shift_of_small_frame ties tie_after_df. reflexivity.
Qed.

(** ** Top-k topics *)

Lemma StronglySorted_app {A : Type} (R : A -> A -> Prop) (l1 l2 : list A) :
  StronglySorted R (l1 ++ l2) ->
  StronglySorted R l1
  /\ forall a b, In a l1 -> In b l2 -> R a b.
Proof.
  induction l1 as [|x l1 IH]; simpl; intros Hs.
  - split; [constructor | intros a b []].
  - inversion Hs as [|? ? Hs' Hall]; subst.
    destruct (IH Hs') as [S1 C]. rewrite Forall_forall in Hall.
    split.
    + constructor; [exact S1|]. rewrite Forall_forall.
      intros y Hy. apply Hall, in_or_app. auto.
    + intros a b [<-|Ha] Hb.
      * apply Hall, in_or_app. auto.
      * apply C; assumption.
Qed.

Lemma value_counts_perm (ties : TieOrder) (df : DataFrame) :
  Permutation (pd.value_counts ties (map topic_name df)) (counts_by_appearance df).
Proof.
  unfold pd.value_counts, counts_by_appearance, topic_count. cbv zeta.
  rewrite sort_by_perm. apply arrange_perm.
Qed.

Lemma value_counts_In (ties : TieOrder) (df : DataFrame) (t : string) (n : Z) :
  In (t, n) (pd.value_counts ties (map topic_name df)) <->
  In t (map topic_name df) /\ n = topic_count df t.
Proof.
  split.
  - intros H. apply (Permutation_in _ (value_counts_perm ties df)) in H.
    unfold counts_by_appearance in H. apply in_map_iff in H.
    destruct H as [t' [E Ht]]. inversion E; subst.
    rewrite unique_In in Ht. auto.
  - intros [Ht ->].
    apply (Permutation_in _ (Permutation_sym (value_counts_perm ties df))).
    unfold counts_by_appearance. apply in_map_iff. exists t.
    split; [reflexivity | apply unique_In; exact Ht].
Qed.

Lemma value_counts_keys (ties : TieOrder) (df : DataFrame) :
  NoDup (map fst (pd.value_counts ties (map topic_name df))).
Proof.
  apply (Permutation_NoDup (l := map fst (counts_by_appearance df))).
  - apply Permutation_map. symmetry. apply value_counts_perm.
  - unfold counts_by_appearance. rewrite map_map. simpl. rewrite map_id.
    apply unique_NoDup.
Qed.

Lemma value_counts_sorted (ties : TieOrder) (df : DataFrame) :
  StronglySorted (fun a b : string * Z => snd b <= snd a)
                 (pd.value_counts ties (map topic_name df)).
Proof.
  unfold pd.value_counts.
  set (leb := fun a b : string * Z => snd b <=? snd a).
  assert (Hs := sort_by_sorted leb).
  assert (T : forall x y, leb x y = true \/ leb y x = true)
    by (intros x y; unfold leb; rewrite !Z.leb_le; lia).
  assert (Tr : forall x y z, leb x y = true -> leb y z = true -> leb x z = true)
    by (intros x y z; unfold leb; rewrite !Z.leb_le; lia).
  specialize (Hs T Tr). match goal with |- StronglySorted _ (sort_by _ ?l) =>
    specialize (Hs l); induction Hs as [|a l' S IH F]; constructor; auto end.
  rewrite Forall_forall in *. intros b Hb. apply Z.leb_le. apply (F b Hb).
Qed.

Lemma value_counts_length (ties : TieOrder) (df : DataFrame) :
  List.length (pd.value_counts ties (map topic_name df))
  = List.length (pd.unique (map topic_name df)).
Proof.
  rewrite (Permutation_length (value_counts_perm ties df)).
  unfold counts_by_appearance. apply length_map.
Qed.

Lemma top_k_split (ties : TieOrder) (k : nat) (df : DataFrame) :
  pd.value_counts ties (map topic_name df)
  = top_k ties k df ++ skipn k (pd.value_counts ties (map topic_name df)).
Proof. unfold top_k, pd.head. symmetry. apply firstn_skipn. Qed.

(* No NoDup list can hold a key in both halves of a split. *)
Lemma NoDup_app_keys {A B : Type} (l1 l2 : list (A * B)) (a : A) (b b' : B) :
  NoDup (map fst (l1 ++ l2)) -> In (a, b) l1 -> In (a, b') l2 -> False.
Proof.
  rewrite map_app. intros N H1 H2.
  induction l1 as [|x l1 IH]; simpl in *; [contradiction|].
  inversion N as [|? ? Nx N']; subst.
  destruct H1 as [->|H1].
  - apply Nx. simpl. apply in_or_app. right.
    apply (in_map fst) in H2. exact H2.
  - apply IH; assumption.
Qed.

Lemma top_k_before_rest (ties : TieOrder) (k : nat) (df : DataFrame) :
  StronglySorted (fun a b : string * Z => snd b <= snd a) (top_k ties k df)
  /\ forall a b, In a (top_k ties k df) ->
                 In b (skipn k (pd.value_counts ties (map topic_name df))) ->
                 snd b <= snd a.
Proof.
  pose proof (value_counts_sorted ties df) as S.
  rewrite (top_k_split ties k df) in S.
  apply (StronglySorted_app _ _ _ S).
Qed.

Lemma top_k_In (ties : TieOrder) (k : nat) (df : DataFrame) (t : string) (n : Z) :
  In (t, n) (top_k ties k df) -> In t (map topic_name df) /\ n = topic_count df t.
Proof.
  intros H. apply (value_counts_In ties).
  rewrite (top_k_split ties k df). apply in_or_app. auto.
Qed.

Lemma top_k_length (ties : TieOrder) (k : nat) (df : DataFrame) :
  (List.length (top_k ties k df) <= k)%nat.
Proof. unfold top_k, pd.head. apply firstn_le_length. Qed.

Lemma top_k_exact_length (ties : TieOrder) (k : nat) (df : DataFrame) :
  List.length (top_k ties k df)
  = Nat.min k (List.length (pd.unique (map topic_name df))).
Proof.
  unfold top_k, pd.head. rewrite length_firstn, value_counts_length.
  reflexivity.
Qed.

Lemma top_k_keys_NoDup (ties : TieOrder) (k : nat) (df : DataFrame) :
  NoDup (map fst (top_k ties k df)).
Proof.
  pose proof (value_counts_keys ties df) as N.
  rewrite (top_k_split ties k df), map_app in N.
  apply NoDup_app_remove_r in N. exact N.
Qed.

Lemma top_k_names_sorted (ties : TieOrder) (k : nat) (df : DataFrame) :
  StronglySorted (fun a b => topic_count df b <= topic_count df a)
                 (map fst (top_k ties k df)).
Proof.
  pose proof (proj1 (top_k_before_rest ties k df)) as S.
  pose proof (top_k_In ties k df) as K.
  induction S as [|e l S IH F]; simpl; constructor.
  - apply IH. intros t n Hin. apply K. right. exact Hin.
  - rewrite Forall_forall in *. intros t Ht. apply in_map_iff in Ht.
    destruct Ht as [[t' n'] [<- Hin]]. destruct e as [t0 n0]. simpl.
    destruct (K t0 n0 (or_introl eq_refl)) as [_ <-].
    destruct (K t' n' (or_intror Hin)) as [_ <-].
    apply (F _ Hin).
Qed.

Lemma top_k_dominates (ties : TieOrder) (k : nat) (df : DataFrame)
    (t t' : string) (n : Z) :
  In (t, n) (top_k ties k df) ->
  In t' (map topic_name df) ->
  ~ In t' (map fst (top_k ties k df)) ->
  topic_count df t' <= n.
Proof.
  intros Hin Ht' Hout.
  assert (H : In (t', topic_count df t') (pd.value_counts ties (map topic_name df)))
    by (apply (value_counts_In ties); auto).
  rewrite (top_k_split ties k df) in H. apply in_app_or in H.
  destruct H as [H|H].
  - exfalso. apply Hout. apply (in_map fst) in H. exact H.
  - apply (proj2 (top_k_before_rest ties k df) _ _ Hin H).
Qed.

(* Two topics of one article each come in the order of their rows or in
   the reverse of it, the same way round for either order of the rows. *)
Lemma top_k_two_tied (ties : TieOrder) (rs rt : Row) :
  topic_name rs <> topic_name rt ->
  let s := (topic_name rs, 1) in
  let t := (topic_name rt, 1) in
  (top_k ties 2 [rs; rt] = [s; t] /\ top_k ties 2 [rt; rs] = [t; s])
  \/ (top_k ties 2 [rs; rt] = [t; s] /\ top_k ties 2 [rt; rs] = [s; t]).
Proof.
  intros Hne s t.
  assert (Est : String.eqb (topic_name rs) (topic_name rt) = false)
    by (apply String.eqb_neq; exact Hne).
  assert (Ets : String.eqb (topic_name rt) (topic_name rs) = false)
    by (rewrite String.eqb_sym; exact Est).
  assert (Cst : map (fun k => (k, pd.occurrences k (map topic_name [rs; rt])))
                    (pd.unique (map topic_name [rs; rt])) = [s; t]).
  { unfold pd.occurrences. simpl.
    repeat (rewrite ?String.eqb_refl, ?Est, ?Ets; simpl). reflexivity. }
  assert (Cts : map (fun k => (k, pd.occurrences k (map topic_name [rt; rs])))
                    (pd.unique (map topic_name [rt; rs])) = [t; s]).
  { unfold pd.occurrences. simpl.
    repeat (rewrite ?String.eqb_refl, ?Est, ?Ets; simpl). reflexivity. }
  unfold top_k, pd.head, pd.value_counts. cbv zeta. rewrite Cst, Cts.
  change (map snd [s; t]) with [1; 1]. change (map snd [t; s]) with [1; 1].
  destruct (arrange_two (int64_ties ties [1; 1])) as [E|E]; rewrite !E;
    [left | right]; split; reflexivity.
Qed.

(** C8.  The first k entries of the value counts are at most k topics of
    the filtered frame, each once and with its count, in descending
    order of count, and no topic left out has a greater count than one
    that is returned.  Topics with equal counts are not put in any order
    of their names: two tied topics come in the order of their rows or
    in the reverse of it, whichever the sort gives, and so in opposite
    orders for the two orders of the rows. *)
Theorem top_k_largest_counts (ties : TieOrder) (k : nat) (df : DataFrame) :
  (List.length (top_k ties k df) <= k)%nat
  /\ (forall t n, In (t, n) (top_k ties k df) ->
                  In t (map topic_name df) /\ n = topic_count df t)
  /\ NoDup (map fst (top_k ties k df))
  /\ StronglySorted (fun a b : string * Z => snd b <= snd a) (top_k ties k df)
  /\ (forall t n t', In (t, n) (top_k ties k df) ->
                     In t' (map topic_name df) ->
                     ~ In t' (map fst (top_k ties k df)) ->
                     topic_count df t' <= n)
  /\ (forall rs rt,
        topic_name rs <> topic_name rt ->
        (top_k ties 2 [rs; rt] = [(topic_name rs, 1); (topic_name rt, 1)]
         /\ top_k ties 2 [rt; rs] = [(topic_name rt, 1); (topic_name rs, 1)])
        \/ (top_k ties 2 [rs; rt] = [(topic_name rt, 1); (topic_name rs, 1)]
            /\ top_k ties 2 [rt; rs] = [(topic_name rs, 1); (topic_name rt, 1)])).
Proof.
  repeat match goal with |- _ /\ _ => split end.
  - apply top_k_length.
  - apply top_k_In.
  - apply top_k_keys_NoDup.
  - apply top_k_before_rest.
  - intros t n t'. apply top_k_dominates.
  - intros rs rt Hne. apply (top_k_two_tied ties rs rt Hne).
Qed.

(** C8, as stated, fails: no order on topic names decides the place of
    tied topics, whatever the sort does with ties, because two frames
    with the same counts list the same two tied topics in opposite
    orders. *)
Lemma tie_order_is_not_an_order_on_topics :
  (forall t, topic_count ab_df t = topic_count ba_df t)
  /\ top_k input_order 2 ab_df = [("a", 1); ("b", 1)]
  /\ top_k input_order 2 ba_df = [("b", 1); ("a", 1)]
  /\ ~ exists (ties : TieOrder) (before : string -> string -> bool),
         (forall s t, before s t = true -> before t s = false)
         /\ (forall df s t n,
               top_k ties 2 df = [(s, n); (t, n)] -> before s t = true).
Proof.
  split; [|split; [|split]].
  - intros t. unfold topic_count, pd.occurrences. simpl.
    destruct (String.eqb t "a"), (String.eqb t "b"); reflexivity.
  - vm_compute. reflexivity.
  - vm_compute. reflexivity.
  - intros [ties [before [Anti Dec]]].
    assert (Hne : topic_name (article "a" "pre_election" 1)
                  <> topic_name (article "b" "pre_election" 2))
      by discriminate.
    destruct (top_k_two_tied ties _ _ Hne) as [[E1 E2]|[E1 E2]].
    + pose proof (Dec _ _ _ _ E1) as H1. pose proof (Dec _ _ _ _ E2) as H2.
      rewrite (Anti _ _ H1) in H2. discriminate.
    + pose proof (Dec _ _ _ _ E1) as H1. pose proof (Dec _ _ _ _ E2) as H2.
      rewrite (Anti _ _ H1) in H2. discriminate.
Qed.

(* The order of tied topics is the sort's: the same frame under two
   orders of ties. *)
Example tied_topics_under_two_orders :
  map fst (top_k input_order 10 pairs_df) = ["c"; "d"; "a"; "b"]
  /\ map fst (top_k reverse_order 10 pairs_df) = ["d"; "c"; "b"; "a"].
Proof. vm_compute. split; reflexivity. Qed.

(** ** Time series *)

Lemma occurrences_map {R K : Type} `{Key K} (by_ : R -> K) (df : list R) (k : K) :
  pd.occurrences k (map by_ df)
  = Z.of_nat (List.length (filter (fun r => key_eqb k (by_ r)) df)).
Proof.
  unfold pd.occurrences. f_equal.
  induction df as [|r df IH]; [reflexivity|].
  cbn [map filter]. destruct (key_eqb k (by_ r)); cbn [List.length];
    rewrite IH; reflexivity.
Qed.

Lemma filter_filter_length {R : Type} (P Q : R -> bool) (b : bool) (l : list R) :
  (forall r, P r = true -> Q r = b) ->
  List.length (filter P (filter Q l))
  = if b then List.length (filter P l) else 0%nat.
Proof.
  intros H. induction l as [|r l IH].
  - destruct b; reflexivity.
  - cbn [filter]. destruct (P r) eqn:Pr.
    + rewrite (H r Pr). destruct b.
      * cbn [filter]. rewrite Pr. cbn [List.length]. rewrite IH. reflexivity.
      * exact IH.
    + destruct (Q r); [cbn [filter]; rewrite Pr|]; exact IH.
Qed.

Lemma occurrences_date_topic (df : DataFrame) (top : list string)
    (d : Z) (t : string) :
  pd.occurrences (d, t)
    (map date_topic (filter (fun r => pd.isin (topic_name r) top) df))
  = if pd.isin t top then n_dated df d t else 0.
Proof.
  rewrite occurrences_map.
  rewrite (filter_filter_length _ _ (pd.isin t top)).
  - unfold n_dated. destruct (pd.isin t top); [|reflexivity].
    f_equal. f_equal. apply filter_ext. intros r. simpl.
    rewrite (Z.eqb_sym d), (String.eqb_sym t). reflexivity.
  - intros r. simpl. rewrite andb_true_iff, String.eqb_eq.
    intros [_ ->]. reflexivity.
Qed.

(** C9.  The time series has one entry for each (date, topic) pair that
    occurs in the filtered frame with a topic among the first six of the
    value counts, and no other entry: rows of the remaining topics are
    dropped, not gathered under another label.  The chart topics are six
    distinct topics of the frame, or all its topics when it has fewer,
    in descending order of their number of articles, and none left out
    occurs more often than one of them.  The count of an entry is the
    number of rows of the frame with that date and topic. *)
Theorem time_series_keeps_top_six_only (ties : TieOrder) (df : DataFrame) :
  (List.length (top_topics ties df) <= 6)%nat
  /\ List.length (top_topics ties df)
     = Nat.min 6 (List.length (pd.unique (map topic_name df)))
  /\ NoDup (top_topics ties df)
  /\ StronglySorted (fun a b => topic_count df b <= topic_count df a)
                    (top_topics ties df)
  /\ (forall t, In t (top_topics ties df) -> In t (map topic_name df))
  /\ (forall t t', In t (top_topics ties df) ->
                   In t' (map topic_name df) ->
                   ~ In t' (top_topics ties df) ->
                   topic_count df t' <= topic_count df t)
  /\ (forall d t n,
        In ((d, t), n) (time_df ties df) <->
        In t (top_topics ties df) /\ 0 < n /\ n = n_dated df d t)
  /\ NoDup (map fst (time_df ties df)).
Proof.
  pose proof (top_k_length ties 6 df) as L.
  pose proof (top_k_In ties 6 df) as K.
  pose proof (top_k_dominates ties 6 df) as G.
  repeat match goal with |- _ /\ _ => split end.
  - unfold top_topics. rewrite length_map. exact L.
  - unfold top_topics. rewrite length_map. apply top_k_exact_length.
  - unfold top_topics. apply top_k_keys_NoDup.
  - unfold top_topics. apply top_k_names_sorted.
  - unfold top_topics. intros t Ht. apply in_map_iff in Ht.
    destruct Ht as [[t' n] [<- Hin]]. apply (K _ _ Hin).
  - unfold top_topics. intros t t' Ht Ht' Hout. apply in_map_iff in Ht.
    destruct Ht as [[t0 n] [<- Hin]]. simpl.
    destruct (K _ _ Hin) as [_ <-]. apply (G _ _ _ Hin Ht' Hout).
  - intros d t n. unfold time_df.
    rewrite groupby_size_In.
    fold date_topic. rewrite <- occurrences_pos, occurrences_date_topic.
    destruct (pd.isin t (top_topics ties df)) eqn:I.
    + apply isin_In in I. split; [intros [P ->]; auto | intros [_ [P ->]]; auto].
    + apply isin_not_In in I. split; [intros [P _]; lia | tauto].
  - apply groupby_size_keys.
Qed.

(** ** Article explorer *)

Lemma selectbox_In {A : Type} (options : list A) (picked : nat) :
  options <> [] ->
  exists x, selectbox options picked = Some x /\ In x options.
Proof.
  intros Hne. unfold selectbox.
  destruct (nth_error options picked) as [x|] eqn:E.
  - exists x. split; [reflexivity|]. apply (nth_error_In _ _ E).
  - destruct options as [|x options]; [contradiction|].
    exists x. simpl. auto.
Qed.

Lemma selectbox_nil {A : Type} (picked : nat) :
  selectbox (@nil A) picked = None.
Proof. unfold selectbox. destruct picked; reflexivity. Qed.

Lemma matching_In (df : DataFrame) (topic : option string) (id : option Z)
    (r : Row) :
  In r (matching df topic id) <->
  In r df /\ Some (topic_name r) = topic /\ Some (article_id r) = id.
Proof.
  unfold matching. rewrite !filter_In.
  destruct topic as [t|], id as [i|]; simpl;
    rewrite ?String.eqb_eq, ?Z.eqb_eq;
    intuition (try congruence).
Qed.

Lemma article_text_matching (df : DataFrame) (topic : option string)
    (id : option Z) :
  article_text df topic id = pd.iloc0 (map text_clean (matching df topic id)).
Proof. reflexivity. Qed.

Lemma article_explorer_ok (df : DataFrame) (picked_topic picked_id : nat) :
  df <> [] -> exists txt, article_explorer df picked_topic picked_id = Ok txt.
Proof.
  intros Hne. unfold article_explorer.
  destruct (selectbox_In (pd.unique (map topic_name df)) picked_topic)
    as [t [Et Ht]].
  { destruct df as [|r df]; [contradiction | discriminate]. }
  rewrite Et. rewrite unique_In in Ht. apply in_map_iff in Ht.
  destruct Ht as [r [Er Hr]].
  assert (Hs : In r (subset df (Some t))).
  { unfold subset. apply filter_In. split; [exact Hr|].
    simpl. apply String.eqb_eq. exact Er. }
  destruct (selectbox_In (map article_id (subset df (Some t))) picked_id)
    as [i [Ei Hi]].
  { intros E. apply map_eq_nil in E. rewrite E in Hs. contradiction. }
  rewrite Ei. apply in_map_iff in Hi. destruct Hi as [r' [Er' Hr']].
  unfold text.
  destruct (filter _ (subset df (Some t))) as [|x l] eqn:F.
  - exfalso. assert (Hin : In r' []); [|contradiction].
    rewrite <- F. apply filter_In. split; [exact Hr'|].
    simpl. apply Z.eqb_eq. exact Er'.
  - simpl. eauto.
Qed.

(** C6.  On the empty frame the value counts, the top topics, the time
    series, the heatmap and the top-topics table are empty and the
    election-shift block shows its notice; the article explorer raises
    IndexError, and so does the whole run when no organisation is
    selected.  The explorer raises on the empty frame only. *)
Theorem empty_subset_raises_in_article_explorer (ties : TieOrder)
    (df : DataFrame) (ts ps : list string) (picked_topic picked_id : nat) :
  pd.value_counts ties (map topic_name (@nil Row)) = []
  /\ top_topics ties [] = []
  /\ time_df ties [] = []
  /\ heat_df [] = []
  /\ top_topics_df ties [] = []
  /\ election_shift ties [] = Ok SelectBoth
  /\ article_explorer [] picked_topic picked_id = Raise IndexError
  /\ (forall df', article_explorer df' picked_topic picked_id = Raise IndexError
                  <-> df' = [])
  /\ dashboard ties df [] ts ps picked_topic picked_id = Raise IndexError.
Proof.
  assert (E0 : article_explorer [] picked_topic picked_id = Raise IndexError).
  { unfold article_explorer. simpl.
    rewrite !selectbox_nil. reflexivity. }
  do 6 (split; [reflexivity|]).
  split; [exact E0|]. split.
  - intros df'. split.
    + intros E. destruct df' as [|r df']; [reflexivity|].
      destruct (article_explorer_ok (r :: df') picked_topic picked_id)
        as [txt Ok]; [discriminate|]. congruence.
    + intros ->. exact E0.
  - unfold dashboard.
    rewrite (filter_is_empty_without_sources df ts ps). cbv zeta.
    change (election_shift ties []) with (Ok SelectBoth). cbn [bind].
    rewrite E0. reflexivity.
Qed.

(** C7.  The lookup returns the text of the first row of the frame that
    has the selected topic and the selected id, which is the text of the
    one such row when ids are unique; when no row has both it raises
    IndexError. *)
Theorem article_lookup_raises_without_match
    (df : DataFrame) (topic : option string) (id : option Z) :
  (forall r rest, matching df topic id = r :: rest ->
                  article_text df topic id = Ok (text_clean r))
  /\ (forall r, NoDup (map article_id df) ->
                In r df -> Some (topic_name r) = topic ->
                Some (article_id r) = id ->
                article_text df topic id = Ok (text_clean r))
  /\ (article_text df topic id = Raise IndexError <->
      forall r, In r df ->
                ~ (Some (topic_name r) = topic /\ Some (article_id r) = id))
  /\ article_text df None None = Raise IndexError.
Proof.
  rewrite !article_text_matching.
  split; [|split; [|split]].
  - intros r rest ->. reflexivity.
  - intros r Nd Hr Et Ei.
    assert (Hm : In r (matching df topic id)) by (apply matching_In; auto).
    destruct (matching df topic id) as [|x l] eqn:M; [contradiction|].
    simpl. f_equal. f_equal.
    assert (Hx : In x (matching df topic id)) by (rewrite M; left; reflexivity).
    apply matching_In in Hx. destruct Hx as [Hx [_ Ex]].
    assert (Eid : article_id x = article_id r) by congruence.
    clear - Nd Hx Hr Eid.
    induction df as [|y df IH]; [contradiction|].
    simpl in Nd. inversion Nd as [|? ? Ny Nd']; subst.
    destruct Hx as [->|Hx], Hr as [->|Hr]; auto.
    + exfalso. apply Ny. rewrite Eid. apply in_map. exact Hr.
    + exfalso. apply Ny. rewrite <- Eid. apply in_map. exact Hx.
  - split.
    + intros E r Hr [Et Ei].
      assert (Hm : In r (matching df topic id)) by (apply matching_In; auto).
      destruct (matching df topic id); [contradiction | discriminate].
    + intros N. destruct (matching df topic id) as [|x l] eqn:M; [reflexivity|].
      exfalso. assert (Hx : In x (matching df topic id))
        by (rewrite M; left; reflexivity).
      apply matching_In in Hx. destruct Hx as [Hx [Et Ei]].
      apply (N x Hx). auto.
  - assert (E : matching df None None = []).
    { unfold matching. simpl. induction df; simpl; auto. }
    rewrite E. reflexivity.
Qed.

(** * Further properties of the script *)

(** ** The order of group keys *)

Lemma ascii_compare_trans (a b c : ascii) :
  Ascii.compare a b <> Gt -> Ascii.compare b c <> Gt -> Ascii.compare a c <> Gt.
Proof.
  unfold Ascii.compare.
  destruct (N.compare_spec (N_of_ascii a) (N_of_ascii b));
  destruct (N.compare_spec (N_of_ascii b) (N_of_ascii c));
  destruct (N.compare_spec (N_of_ascii a) (N_of_ascii c));
  intros; try congruence; lia.
Qed.

Lemma string_compare_trans (s1 s2 s3 : string) :
  String.compare s1 s2 <> Gt -> String.compare s2 s3 <> Gt ->
  String.compare s1 s3 <> Gt.
Proof.
  revert s2 s3. induction s1 as [|a s1 IH]; intros [|b s2] [|c s3]; simpl;
    try congruence.
  destruct (Ascii.compare a b) eqn:Eab; try congruence;
  destruct (Ascii.compare b c) eqn:Ebc; try congruence; intros H1 H2.
  - apply Ascii.compare_eq_iff in Eab, Ebc. subst.
    assert (E : Ascii.compare c c = Eq) by (apply N.compare_refl).
    rewrite E. apply (IH s2 s3); assumption.
  - apply Ascii.compare_eq_iff in Eab. subst. rewrite Ebc. congruence.
  - apply Ascii.compare_eq_iff in Ebc. subst. rewrite Eab. congruence.
  - assert (N : Ascii.compare a c <> Gt)
      by (apply (ascii_compare_trans a b c); congruence).
    destruct (Ascii.compare a c) eqn:Eac; try congruence.
    apply Ascii.compare_eq_iff in Eac. subst.
    rewrite Ascii.compare_antisym, Eab in Ebc. discriminate.
Qed.

Lemma string_leb_trans (s1 s2 s3 : string) :
  String.leb s1 s2 = true -> String.leb s2 s3 = true -> String.leb s1 s3 = true.
Proof.
  unfold String.leb. intros H1 H2.
  assert (N : String.compare s1 s3 <> Gt).
  { apply (string_compare_trans s1 s2 s3).
    - destruct (String.compare s1 s2); congruence.
    - destruct (String.compare s2 s3); congruence. }
  destruct (String.compare s1 s3); congruence.
Qed.

#[export] Instance string_KeyOrder : KeyOrder string.
Proof.
  constructor.
  - apply String.leb_total.
  - apply string_leb_trans.
  - apply String.leb_antisym.
Qed.

#[export] Instance Z_KeyOrder : KeyOrder Z.
Proof.
  constructor; simpl; intros; rewrite ?Z.leb_le in *; lia.
Qed.

#[export] Instance pair_KeyOrder {A B : Type}
    `{KeyLaws A} `{KeyLaws B} `{!KeyOrder A} `{!KeyOrder B} : KeyOrder (A * B).
Proof.
  constructor.
  - intros [a1 b1] [a2 b2]. simpl.
    destruct (key_eqb a1 a2) eqn:E12.
    + apply key_eqb_eq in E12. subst. rewrite key_eqb_refl.
      apply key_leb_total.
    + destruct (key_eqb a2 a1) eqn:E21.
      * apply key_eqb_eq in E21. subst. rewrite key_eqb_refl in E12.
        discriminate.
      * apply key_leb_total.
  - intros [a1 b1] [a2 b2] [a3 b3]. simpl.
    destruct (key_eqb a1 a2) eqn:E12.
    + apply key_eqb_eq in E12. subst.
      destruct (key_eqb a2 a3); [apply key_leb_trans | auto].
    + destruct (key_eqb a2 a3) eqn:E23.
      * apply key_eqb_eq in E23. subst. rewrite E12. auto.
      * intros L12 L23. destruct (key_eqb a1 a3) eqn:E13.
        -- apply key_eqb_eq in E13. subst.
           rewrite (key_leb_antisym _ _ L12 L23), key_eqb_refl in E12.
           discriminate.
        -- apply (key_leb_trans _ _ _ L12 L23).
  - intros [a1 b1] [a2 b2]. simpl.
    destruct (key_eqb a1 a2) eqn:E12.
    + apply key_eqb_eq in E12. subst. rewrite key_eqb_refl.
      intros L1 L2. f_equal. apply key_leb_antisym; assumption.
    + destruct (key_eqb a2 a1) eqn:E21.
      * apply key_eqb_eq in E21. subst. rewrite key_eqb_refl in E12.
        discriminate.
      * intros L1 L2. rewrite (key_leb_antisym _ _ L1 L2), key_eqb_refl in E12.
        discriminate.
Qed.

(** ** A sorted list is fixed by its elements *)

Lemma sorted_perm_eq {A : Type} (R : A -> A -> Prop) (l1 l2 : list A) :
  (forall a b, R a b -> R b a -> a = b) ->
  StronglySorted R l1 -> StronglySorted R l2 -> Permutation l1 l2 ->
  NoDup l1 -> l1 = l2.
Proof.
  intros Anti S1. revert l2.
  induction S1 as [|x l1 S1 IH F1]; intros l2 S2 P N1.
  - apply Permutation_nil in P. auto.
  - destruct l2 as [|y l2].
    + symmetry in P. apply Permutation_nil in P. discriminate.
    + inversion S2 as [|? ? S2' F2]; subst.
      rewrite Forall_forall in F1, F2.
      assert (Exy : x = y).
      { assert (Hx : In x (y :: l2))
          by (apply (Permutation_in _ P); left; reflexivity).
        assert (Hy : In y (x :: l1))
          by (apply (Permutation_in _ (Permutation_sym P)); left; reflexivity).
        destruct Hx as [->|Hx]; [reflexivity|].
        destruct Hy as [->|Hy]; [reflexivity|].
        apply Anti; [apply F1, Hy | apply F2, Hx]. }
      subst y. f_equal. inversion N1; subst.
      apply IH; auto. apply (Permutation_cons_inv P).
Qed.

Lemma sorted_keys {K : Type} `{KeyOrder K} (l : list K) :
  StronglySorted (fun a b => key_leb a b = true) (sorted l).
Proof.
  unfold sorted. apply sort_by_sorted.
  - apply key_leb_total.
  - apply key_leb_trans.
Qed.

Lemma sorted_unique_perm {K : Type} `{KeyLaws K} `{!KeyOrder K} (l l' : list K) :
  Permutation l l' ->
  sorted (pd.unique l) = sorted (pd.unique l').
Proof.
  intros P. apply (sorted_perm_eq (fun a b => key_leb a b = true)).
  - apply key_leb_antisym.
  - apply sorted_keys.
  - apply sorted_keys.
  - apply NoDup_Permutation.
    + apply (Permutation_NoDup (l := pd.unique l));
        [symmetry; apply sort_by_perm | apply unique_NoDup].
    + apply (Permutation_NoDup (l := pd.unique l'));
        [symmetry; apply sort_by_perm | apply unique_NoDup].
    + intros x. unfold sorted. rewrite !sort_by_In, !unique_In.
      split; apply Permutation_in; [exact P | symmetry; exact P].
  - apply (Permutation_NoDup (l := pd.unique l));
      [symmetry; apply sort_by_perm | apply unique_NoDup].
Qed.

Lemma occurrences_perm {K : Type} `{Key K} (k : K) (l l' : list K) :
  Permutation l l' -> pd.occurrences k l = pd.occurrences k l'.
Proof.
  intros P. unfold pd.occurrences. f_equal.
  induction P; simpl;
    repeat match goal with |- context [if ?c then _ else _] => destruct c end;
    simpl; congruence.
Qed.

Lemma groupby_size_perm {R K : Type} `{KeyLaws K} `{!KeyOrder K}
    (by_ : R -> K) (df df' : list R) :
  Permutation df df' -> pd.groupby_size by_ df = pd.groupby_size by_ df'.
Proof.
  intros P. unfold pd.groupby_size.
  assert (Pm : Permutation (map by_ df) (map by_ df'))
    by (apply Permutation_map; exact P).
  fold (sorted (pd.unique (map by_ df))).
  fold (sorted (pd.unique (map by_ df'))).
  rewrite (sorted_unique_perm _ _ Pm).
  apply map_ext. intros k. f_equal. apply occurrences_perm. exact Pm.
Qed.

Lemma groupby_size_sorted {R K : Type} `{KeyOrder K} (by_ : R -> K) (df : list R) :
  StronglySorted (fun a b => key_leb a b = true)
                 (map fst (pd.groupby_size by_ df)).
Proof.
  unfold pd.groupby_size. rewrite map_map. simpl. rewrite map_id.
  apply sorted_keys.
Qed.

(** ** Grouped counts add up to the number of rows *)

Lemma sum_Z_app (l1 l2 : list Z) : sum_Z (l1 ++ l2) = sum_Z l1 + sum_Z l2.
Proof.
  induction l1 as [|x l1 IH]; simpl; [reflexivity|].
  unfold sum_Z in *. simpl. rewrite IH. lia.
Qed.

Lemma sum_Z_perm (l1 l2 : list Z) : Permutation l1 l2 -> sum_Z l1 = sum_Z l2.
Proof.
  induction 1; unfold sum_Z in *; simpl; lia.
Qed.

Lemma sum_Z_plus {A : Type} (f g : A -> Z) (l : list A) :
  sum_Z (map (fun x => f x + g x) l) = sum_Z (map f l) + sum_Z (map g l).
Proof.
  induction l as [|x l IH]; unfold sum_Z in *; simpl; lia.
Qed.

Lemma sum_indicator {K : Type} `{KeyLaws K} (ks : list K) (x : K) :
  NoDup ks -> In x ks ->
  sum_Z (map (fun k => if key_eqb k x then 1 else 0) ks) = 1.
Proof.
  intros N. induction N as [|k ks Nk N IH]; intros Hx; [contradiction|].
  unfold sum_Z in *. simpl.
  destruct (key_eqb k x) eqn:E.
  - apply key_eqb_eq in E. subst k.
    assert (Z0 : forall l, ~ In x l ->
              fold_right Z.add 0 (map (fun k => if key_eqb k x then 1 else 0) l) = 0).
    { induction l as [|y l IHl]; simpl; intros Ny; [reflexivity|].
      destruct (key_eqb y x) eqn:Ey.
      - apply key_eqb_eq in Ey. subst. exfalso. apply Ny. auto.
      - rewrite IHl; [reflexivity | tauto]. }
    rewrite (Z0 ks Nk). reflexivity.
  - destruct Hx as [->|Hx].
    + rewrite key_eqb_refl in E. discriminate.
    + rewrite (IH Hx). reflexivity.
Qed.

Lemma occurrences_cons {K : Type} `{Key K} (k a : K) (col : list K) :
  pd.occurrences k (a :: col)
  = (if key_eqb k a then 1 else 0) + pd.occurrences k col.
Proof.
  unfold pd.occurrences. simpl. destruct (key_eqb k a); simpl List.length; lia.
Qed.

Lemma sum_occurrences {K : Type} `{KeyLaws K} (ks col : list K) :
  NoDup ks -> (forall x, In x col -> In x ks) ->
  sum_Z (map (fun k => pd.occurrences k col) ks) = Z.of_nat (List.length col).
Proof.
  intros N. induction col as [|a col IH]; intros Hc.
  - unfold pd.occurrences. simpl. clear. induction ks; [reflexivity|].
    unfold sum_Z in *. simpl. rewrite IHks. reflexivity.
  - rewrite (map_ext _ (fun k => (if key_eqb k a then 1 else 0)
                                 + pd.occurrences k col))
      by (intros k; apply occurrences_cons).
    rewrite sum_Z_plus, IH by (intros x Hx; apply Hc; right; exact Hx).
    rewrite sum_indicator; [|exact N|apply Hc; left; reflexivity].
    simpl List.length. lia.
Qed.

Lemma groupby_size_total {R K : Type} `{KeyLaws K} (by_ : R -> K) (df : list R) :
  sum_Z (map snd (pd.groupby_size by_ df)) = Z.of_nat (List.length df).
Proof.
  unfold pd.groupby_size. rewrite map_map. simpl.
  rewrite sum_occurrences.
  - rewrite length_map. reflexivity.
  - apply (Permutation_NoDup (l := pd.unique (map by_ df)));
      [symmetry; apply sort_by_perm | apply unique_NoDup].
  - intros x Hx. rewrite sort_by_In, unique_In. exact Hx.
Qed.

Lemma value_counts_total (ties : TieOrder) (df : DataFrame) :
  sum_Z (map snd (pd.value_counts ties (map topic_name df)))
  = Z.of_nat (List.length df).
Proof.
  rewrite (sum_Z_perm _ (map snd (counts_by_appearance df)))
    by (apply Permutation_map, value_counts_perm).
  unfold counts_by_appearance, topic_count. rewrite map_map. simpl.
  rewrite sum_occurrences.
  - rewrite length_map. reflexivity.
  - apply unique_NoDup.
  - intros x Hx. rewrite unique_In. exact Hx.
Qed.

Lemma occurrences_source_topic (df : DataFrame) (s t : string) :
  pd.occurrences (s, t) (map source_topic df) = n_sourced df s t.
Proof.
  rewrite occurrences_map. unfold n_sourced. f_equal. f_equal.
  apply filter_ext. intros r. simpl.
  rewrite (String.eqb_sym s), (String.eqb_sym t). reflexivity.
Qed.

(** X1.  The heatmap frame has one row for each (source, topic) pair
    that occurs in the filtered frame and none for a pair that does not
    occur; the row holds the number of articles of the pair; the rows
    are in ascending order of (source, topic), no pair twice; and their
    counts add up to the number of articles. *)
Theorem heat_df_counts_each_pair_once (df : DataFrame) :
  (forall s t n, In ((s, t), n) (heat_df df) <->
                 0 < n /\ n = n_sourced df s t)
  /\ NoDup (map fst (heat_df df))
  /\ StronglySorted (fun a b => key_leb a b = true) (map fst (heat_df df))
  /\ sum_Z (map snd (heat_df df)) = Z.of_nat (List.length df).
Proof.
  split; [|split; [|split]].
  - intros s t n. unfold heat_df. fold source_topic.
    rewrite groupby_size_In, <- occurrences_pos, occurrences_source_topic.
    split; [intros [P ->]; auto | intros [P ->]; auto].
  - apply groupby_size_keys.
  - apply groupby_size_sorted.
  - apply groupby_size_total.
Qed.

(** ** Columns of the pivot *)

Lemma filter_filter_and {R : Type} (P Q : R -> bool) (l : list R) :
  filter P (filter Q l) = filter (fun r => Q r && P r) l.
Proof.
  induction l as [|r l IH]; [reflexivity|].
  simpl. destruct (Q r); simpl; [destruct (P r)|]; rewrite IH; reflexivity.
Qed.

Lemma occurrences_in_period (df : DataFrame) (p t : string) :
  pd.occurrences (p, t) (map period_topic df)
  = pd.occurrences t
      (map topic_name (filter (fun r => String.eqb (election_period r) p) df)).
Proof.
  rewrite !occurrences_map, filter_filter_and.
  f_equal. f_equal. apply filter_ext. intros r. simpl.
  rewrite (String.eqb_sym p). reflexivity.
Qed.

Lemma pivot_column (df : DataFrame) (p : string) :
  sum_Z (map (fun t => pivot_cell (rank df) p t)
             (sort_by key_leb (pd.unique (map (fun g => snd (fst g)) (rank df)))))
  = n_period df p.
Proof.
  rewrite (map_ext _ (fun t => pd.occurrences t
             (map topic_name
                (filter (fun r => String.eqb (election_period r) p) df))))
    by (intros t; rewrite pivot_cell_rank; apply occurrences_in_period).
  rewrite sum_occurrences.
  - rewrite length_map. reflexivity.
  - rewrite <- pivot_index. apply pivot_index_NoDup.
  - intros t Ht. rewrite <- pivot_index. apply pivot_index_In.
    apply in_map_iff in Ht. destruct Ht as [r [<- Hr]].
    apply filter_In in Hr. apply in_map. tauto.
Qed.

(** X2.  The grouped counts by period and topic add up to the number of
    articles, and each of the two count columns of the pivot adds up to
    the number of articles of its period: the pivot loses no article of
    either period and counts none twice.  The pivot rows are in
    ascending order of topic. *)
Theorem pivot_columns_count_each_article_once (df : DataFrame) :
  sum_Z (map snd (rank df)) = Z.of_nat (List.length df)
  /\ sum_Z (map pre_election (pivot (rank df))) = n_period df "pre_election"
  /\ sum_Z (map post_election (pivot (rank df))) = n_period df "post_election"
  /\ StronglySorted (fun a b => String.leb a b = true)
                    (map pv_topic (pivot (rank df))).
Proof.
  split; [|split; [|split]].
  - apply groupby_size_total.
  - unfold pivot. rewrite map_map. simpl. apply pivot_column.
  - unfold pivot. rewrite map_map. simpl. apply pivot_column.
  - rewrite pivot_index.
    exact (sorted_keys (pd.unique (map (fun g => snd (fst g)) (rank df)))).
Qed.

(** ** Totals of the top-k lists *)

Lemma filter_length_all {A : Type} (P : A -> bool) (l : list A) :
  List.length (filter P l) = List.length l <-> forall x, In x l -> P x = true.
Proof.
  induction l as [|a l IH]; simpl.
  - split; [intros _ x [] | reflexivity].
  - pose proof (filter_length_le P l) as B.
    destruct (P a) eqn:Pa; simpl.
    + split.
      * intros E x [<-|Hx]; [exact Pa|]. apply IH; [lia | exact Hx].
      * intros Hall. f_equal. apply IH. auto.
    + split; [lia|]. intros Hall. rewrite Hall in Pa by auto. discriminate.
Qed.

Lemma value_counts_positive (ties : TieOrder) (df : DataFrame) (e : string * Z) :
  In e (pd.value_counts ties (map topic_name df)) -> 0 < snd e.
Proof.
  destruct e as [t n]. intros H. apply (value_counts_In ties) in H.
  destruct H as [Ht ->]. simpl. apply occurrences_pos. exact Ht.
Qed.

Lemma sum_Z_positive (l : list (string * Z)) :
  (forall e, In e l -> 0 < snd e) ->
  0 <= sum_Z (map snd l) /\ (sum_Z (map snd l) = 0 -> l = []).
Proof.
  induction l as [|e l IH]; intros Hp.
  - split; [unfold sum_Z; simpl; lia | reflexivity].
  - assert (He := Hp e (or_introl eq_refl)).
    destruct (IH (fun x Hx => Hp x (or_intror Hx))) as [N _].
    unfold sum_Z in *. simpl. split; lia.
Qed.

Lemma top_k_total (ties : TieOrder) (k : nat) (df : DataFrame) :
  sum_Z (map snd (top_k ties k df))
  + sum_Z (map snd (skipn k (pd.value_counts ties (map topic_name df))))
  = Z.of_nat (List.length df).
Proof.
  rewrite <- sum_Z_app, <- map_app, <- top_k_split. apply value_counts_total.
Qed.

Lemma top_k_all (ties : TieOrder) (k : nat) (df : DataFrame) :
  (List.length (pd.unique (map topic_name df)) <= k)%nat ->
  top_k ties k df = pd.value_counts ties (map topic_name df).
Proof.
  intros L. unfold top_k, pd.head. apply firstn_all2.
  rewrite value_counts_length. exact L.
Qed.

(** X3.  A top-k list holds k entries, or all topics of the frame when
    there are fewer (so 10 table rows and 6 chart topics at most); a
    shorter list is the beginning of a longer one, so the six chart
    topics are the first six rows of the top-topics table; the counts of
    a list never add up to more than the number of articles, and they
    add up to it exactly when the frame has no more than k topics. *)
Theorem top_k_is_prefix_and_totals (ties : TieOrder) (k : nat) (df : DataFrame) :
  List.length (top_k ties k df)
  = Nat.min k (List.length (pd.unique (map topic_name df)))
  /\ (forall j, (j <= k)%nat -> pd.head j (top_k ties k df) = top_k ties j df)
  /\ top_topics ties df = map fst (pd.head 6 (top_topics_df ties df))
  /\ sum_Z (map snd (top_k ties k df)) <= Z.of_nat (List.length df)
  /\ (sum_Z (map snd (top_k ties k df)) = Z.of_nat (List.length df) <->
      (List.length (pd.unique (map topic_name df)) <= k)%nat).
Proof.
  assert (Pre : forall j, (j <= k)%nat -> pd.head j (top_k ties k df) = top_k ties j df).
  { intros j Hj. unfold top_k, pd.head. rewrite firstn_firstn.
    rewrite Nat.min_l by exact Hj. reflexivity. }
  pose proof (top_k_total ties k df) as T.
  assert (Pos : forall e, In e (skipn k (pd.value_counts ties (map topic_name df))) ->
                          0 < snd e).
  { intros e He. apply (value_counts_positive ties df).
    rewrite (top_k_split ties k df). apply in_or_app. auto. }
  destruct (sum_Z_positive _ Pos) as [N Z0].
  split; [|split; [|split; [|split]]].
  - apply top_k_exact_length.
  - exact Pre.
  - unfold top_topics, top_topics_df.
    unfold top_k, pd.head. rewrite firstn_firstn. reflexivity.
  - lia.
  - split.
    + intros E. assert (S0 : skipn k (pd.value_counts ties (map topic_name df)) = [])
        by (apply Z0; lia).
      apply (f_equal (@List.length _)) in S0.
      rewrite length_skipn, value_counts_length in S0. simpl in S0. lia.
    + intros L. rewrite (top_k_all ties k df L). apply value_counts_total.
Qed.

(** ** Rows kept by the time series *)

Lemma unique_length_le {K : Type} `{Key K} (col : list K) :
  (List.length (pd.unique col) <= List.length col)%nat.
Proof.
  induction col as [|a col IH]; simpl; [lia|].
  pose proof (filter_length_le (fun y => negb (key_eqb a y)) (pd.unique col)).
  lia.
Qed.

Lemma top_topics_length (ties : TieOrder) (df : DataFrame) :
  (List.length (top_topics ties df) <= 6)%nat.
Proof. unfold top_topics. rewrite length_map. apply top_k_length. Qed.

(** X4.  The counts of the time series add up to the number of articles
    whose topic is one of the six chart topics; articles are left out of
    the series exactly when the frame has more than six topics; and the
    rows of the series are in ascending order of (date, topic). *)
Theorem time_df_totals_rows_of_top_six (ties : TieOrder) (df : DataFrame) :
  sum_Z (map snd (time_df ties df)) = n_top_six ties df
  /\ n_top_six ties df <= Z.of_nat (List.length df)
  /\ (n_top_six ties df = Z.of_nat (List.length df) <->
      (List.length (pd.unique (map topic_name df)) <= 6)%nat)
  /\ StronglySorted (fun a b => key_leb a b = true) (map fst (time_df ties df)).
Proof.
  split; [|split; [|split]].
  - unfold time_df. apply groupby_size_total.
  - unfold n_top_six.
    pose proof (filter_length_le
                  (fun r => pd.isin (topic_name r) (top_topics ties df)) df). lia.
  - unfold n_top_six. rewrite Nat2Z.inj_iff, filter_length_all. split.
    + intros Hall.
      apply (Nat.le_trans _ (List.length (top_topics ties df)));
        [|apply top_topics_length].
      apply NoDup_incl_length; [apply unique_NoDup|].
      intros t Ht. rewrite unique_In in Ht. apply in_map_iff in Ht.
      destruct Ht as [r [<- Hr]]. apply isin_In. apply Hall. exact Hr.
    + intros L r Hr. apply isin_In. unfold top_topics.
      rewrite (top_k_all ties 6 df L).
      apply in_map_iff. exists (topic_name r, topic_count df (topic_name r)).
      split; [reflexivity|]. apply (value_counts_In ties).
      split; [apply in_map; exact Hr | reflexivity].
  - apply groupby_size_sorted.
Qed.

(** ** Sidebar selections *)

Lemma filter_all {A : Type} (P : A -> bool) (l : list A) :
  (forall x, In x l -> P x = true) -> filter P l = l.
Proof.
  induction l as [|a l IH]; intros Hall; [reflexivity|].
  simpl. rewrite (Hall a) by (left; reflexivity).
  f_equal. apply IH. intros x Hx. apply Hall. right. exact Hx.
Qed.

Lemma sorted_unique_In (col : list string) (x : string) :
  In x (sorted (pd.unique col)) <-> In x col.
Proof. unfold sorted. rewrite sort_by_In. apply unique_In. Qed.

Lemma sorted_unique_NoDup (col : list string) : NoDup (sorted (pd.unique col)).
Proof.
  apply (Permutation_NoDup (l := pd.unique col));
    [symmetry; apply sort_by_perm | apply unique_NoDup].
Qed.

Lemma unique_snoc {K : Type} `{KeyLaws K} (col : list K) (x : K) :
  pd.unique (col ++ [x])
  = pd.unique col ++ (if pd.isin x col then [] else [x]).
Proof.
  induction col as [|a col IH]; [reflexivity|].
  simpl. rewrite IH, filter_app. f_equal. f_equal.
  unfold pd.isin. simpl. rewrite (key_eqb_sym_bool x a).
  destruct (key_eqb a x) eqn:E; simpl.
  - destruct (existsb (key_eqb x) col); simpl; rewrite ?E; reflexivity.
  - destruct (existsb (key_eqb x) col); simpl; rewrite ?E; reflexivity.
Qed.

(** X5.  The options of the organisation and topic widgets are the
    values of the corpus, each once, in ascending order; those of the
    period widget are the periods of the corpus, each once, in order of
    first appearance: a row added at the end of the corpus adds its
    period at the end of the options when no earlier row has it, and
    changes nothing otherwise.  With the default selection, which is
    every option, the filter keeps the whole corpus. *)
Theorem default_selection_keeps_whole_corpus (df : DataFrame) :
  (forall s, In s (source_options df) <-> In s (map source df))
  /\ (forall t, In t (topic_options df) <-> In t (map topic_name df))
  /\ (forall p, In p (period_options df) <-> In p (map election_period df))
  /\ NoDup (source_options df) /\ NoDup (topic_options df)
  /\ NoDup (period_options df)
  /\ period_options [] = []
  /\ (forall r, period_options (df ++ [r])
                = period_options df
                  ++ (if pd.isin (election_period r) (map election_period df)
                      then [] else [election_period r]))
  /\ StronglySorted (fun a b => String.leb a b = true) (source_options df)
  /\ StronglySorted (fun a b => String.leb a b = true) (topic_options df)
  /\ df_filt df (source_options df) (topic_options df) (period_options df) = df.
Proof.
  repeat match goal with |- _ /\ _ => split end.
  - intros s. apply sorted_unique_In.
  - intros t. apply sorted_unique_In.
  - intros p. apply unique_In.
  - apply sorted_unique_NoDup.
  - apply sorted_unique_NoDup.
  - apply unique_NoDup.
  - reflexivity.
  - intros r. unfold period_options. rewrite map_app. apply unique_snoc.
  - exact (sorted_keys (pd.unique (map source df))).
  - exact (sorted_keys (pd.unique (map topic_name df))).
  - unfold df_filt. apply filter_all. intros r Hr.
    rewrite !andb_true_iff, !isin_In.
    unfold source_options, topic_options, period_options.
    rewrite !sorted_unique_In, unique_In.
    repeat split; apply in_map; exact Hr.
Qed.

Lemma isin_same_members (x : string) (l l' : list string) :
  (forall y, In y l <-> In y l') -> pd.isin x l = pd.isin x l'.
Proof.
  intros E. destruct (pd.isin x l') eqn:I.
  - apply isin_In. apply E. apply isin_In. exact I.
  - apply isin_not_In. rewrite E. apply isin_not_In. exact I.
Qed.

(** X6.  The filter depends on which values are selected only: two
    selections with the same members, in whatever order and however
    often repeated, give the same filtered frame. *)
Theorem df_filt_ignores_selection_order
    (df : DataFrame) (ss ss' ts ts' ps ps' : list string)
    (Hs : forall x, In x ss <-> In x ss')
    (Ht : forall x, In x ts <-> In x ts')
    (Hp : forall x, In x ps <-> In x ps') :
  df_filt df ss ts ps = df_filt df ss' ts' ps'.
Proof.
  unfold df_filt. apply filter_ext. intros r.
  rewrite (isin_same_members _ ss ss' Hs), (isin_same_members _ ts ts' Ht),
    (isin_same_members _ ps ps' Hp).
  reflexivity.
Qed.

Lemma df_filt_ignores_selection_order_witness :
  df_filt ab_df ["dfe"] ["a"; "b"] ["pre_election"]
  = df_filt ab_df ["dfe"; "dfe"] ["b"; "a"] ["pre_election"].
Proof.
  apply (df_filt_ignores_selection_order ab_df).
  - intros x. simpl. tauto.
  - intros x. simpl. tauto.
  - intros x. tauto.
Defined.

(** ** Headline metrics *)

Lemma nunique_bounds {K : Type} `{Key K} (col : list K) :
  0 <= pd.nunique col <= Z.of_nat (List.length col)
  /\ (pd.nunique col = 0 <-> col = []).
Proof.
  unfold pd.nunique. pose proof (unique_length_le col) as L.
  split; [lia|]. destruct col as [|a col]; simpl.
  - tauto.
  - split; [lia | discriminate].
Qed.

Lemma nunique_incl {K : Type} `{KeyLaws K} (col col' : list K) :
  (forall x, In x col -> In x col') -> pd.nunique col <= pd.nunique col'.
Proof.
  intros I. unfold pd.nunique. apply inj_le.
  apply NoDup_incl_length; [apply unique_NoDup|].
  intros x. rewrite !unique_In. apply I.
Qed.

(** X7.  Of the three headline figures, "Topics" and "Organisations" lie
    between 0 and "Articles", and each is 0 exactly when no article
    passes the filter; "Articles" is at most the size of the corpus;
    "Topics" is at most the number of distinct selected topics and
    "Organisations" at most the number of distinct selected
    organisations. *)
Theorem headline_metrics_bounds (df : DataFrame) (ss ts ps : list string) :
  let f := df_filt df ss ts ps in
  let shown_articles := Z.of_nat (List.length f) in
  let shown_topics := pd.nunique (map topic_name f) in
  let shown_orgs := pd.nunique (map source f) in
  0 <= shown_topics <= shown_articles
  /\ 0 <= shown_orgs <= shown_articles
  /\ (shown_topics = 0 <-> f = [])
  /\ (shown_orgs = 0 <-> f = [])
  /\ shown_articles <= Z.of_nat (List.length df)
  /\ shown_topics <= pd.nunique ts
  /\ shown_orgs <= pd.nunique ss
  /\ shown_topics <= pd.nunique (map topic_name df)
  /\ shown_orgs <= pd.nunique (map source df).
Proof.
  intros f shown_articles shown_topics shown_orgs.
  assert (Hf : forall r, In r f ->
             In r df /\ In (source r) ss /\ In (topic_name r) ts).
  { intros r Hr. unfold f, df_filt in Hr. apply filter_In in Hr.
    rewrite !andb_true_iff, !isin_In in Hr. tauto. }
  destruct (nunique_bounds (map topic_name f)) as [B1 Z1].
  destruct (nunique_bounds (map source f)) as [B2 Z2].
  rewrite length_map in B1, B2.
  assert (M : forall (A B : Type) (g : A -> B) (l : list A),
            map g l = [] <-> l = [])
    by (intros A B g l; destruct l; simpl; split; congruence).
  rewrite M in Z1, Z2.
  repeat match goal with |- _ /\ _ => split end;
    try (unfold shown_topics, shown_orgs, shown_articles; tauto || lia).
  - unfold shown_articles, f, df_filt. apply inj_le, filter_length_le.
  - apply nunique_incl. intros x Hx. apply in_map_iff in Hx.
    destruct Hx as [r [<- Hr]]. apply Hf, Hr.
  - apply nunique_incl. intros x Hx. apply in_map_iff in Hx.
    destruct Hx as [r [<- Hr]]. apply Hf, Hr.
  - apply nunique_incl. intros x Hx. apply in_map_iff in Hx.
    destruct Hx as [r [<- Hr]]. apply in_map. apply Hf, Hr.
  - apply nunique_incl. intros x Hx. apply in_map_iff in Hx.
    destruct Hx as [r [<- Hr]]. apply in_map. apply Hf, Hr.
Qed.

(** ** What the article explorer shows *)

Lemma unique_head {K : Type} `{Key K} (a : K) (col : list K) :
  hd_error (pd.unique (a :: col)) = Some a.
Proof. reflexivity. Qed.

Lemma text_of_selected (sub : DataFrame) (i : Z) :
  In i (map article_id sub) ->
  exists r, In r sub /\ article_id r = i /\ text sub (Some i) = Ok (text_clean r).
Proof.
  intros Hi. apply in_map_iff in Hi. destruct Hi as [r' [E Hr']].
  unfold text.
  destruct (filter (fun r => eq_selected (article_id r) (Some i)) sub)
    as [|r l] eqn:F.
  - exfalso. assert (Hin : In r' []); [|contradiction].
    rewrite <- F. apply filter_In. split; [exact Hr'|].
    simpl. apply Z.eqb_eq. exact E.
  - assert (Hr : In r (r :: l)) by (left; reflexivity).
    rewrite <- F in Hr. apply filter_In in Hr. destruct Hr as [Hr Ei].
    simpl in Ei. apply Z.eqb_eq in Ei.
    exists r. simpl. auto.
Qed.

(** X8.  On a frame with at least one article the article explorer
    never raises: the topic box holds a topic of the frame, the article
    box the id of an article of that topic, and the text shown is the
    text of an article of the frame with that topic and that id.  On a
    fresh run, with both boxes on their first option, it is the text of
    the first article of the frame. *)
Theorem article_explorer_shows_selected_article
    (df : DataFrame) (picked_topic picked_id : nat) (Hne : df <> []) :
  (exists r t i,
      selectbox (pd.unique (map topic_name df)) picked_topic = Some t
      /\ selectbox (map article_id (subset df (Some t))) picked_id = Some i
      /\ In r df /\ topic_name r = t /\ article_id r = i
      /\ article_explorer df picked_topic picked_id = Ok (text_clean r))
  /\ article_explorer df 0 0 = pd.iloc0 (map text_clean df).
Proof.
  split.
  - destruct (selectbox_In (pd.unique (map topic_name df)) picked_topic)
      as [t [Et Ht]].
    { destruct df as [|r df]; [contradiction | discriminate]. }
    rewrite unique_In in Ht. apply in_map_iff in Ht.
    destruct Ht as [r0 [Er0 Hr0]].
    assert (Hs : In r0 (subset df (Some t))).
    { unfold subset. apply filter_In. split; [exact Hr0|].
      simpl. apply String.eqb_eq. exact Er0. }
    destruct (selectbox_In (map article_id (subset df (Some t))) picked_id)
      as [i [Ei Hi]].
    { intros E. apply map_eq_nil in E. rewrite E in Hs. contradiction. }
    destruct (text_of_selected _ i Hi) as [r [Hr [Eid Etxt]]].
    exists r, t, i. unfold article_explorer. rewrite Et, Ei.
    unfold subset in Hr. apply filter_In in Hr. destruct Hr as [Hr Etop].
    simpl in Etop. apply String.eqb_eq in Etop.
    repeat split; auto.
  - destruct df as [|r df]; [contradiction|].
    unfold article_explorer, selectbox, subset, text. simpl.
    rewrite String.eqb_refl. simpl. rewrite Z.eqb_refl. reflexivity.
Qed.

Lemma article_explorer_shows_selected_article_witness :
  ab_df <> [] /\ article_explorer ab_df 1 0 = Ok "".
Proof.
  assert (Hne : ab_df <> []) by discriminate.
  split; [exact Hne|].
  destruct (article_explorer_shows_selected_article ab_df 1 0 Hne)
    as [[r [t [i [_ [_ [Hr [_ [_ E]]]]]]]] _].
  rewrite E. f_equal.
  destruct Hr as [<-|[<-|[]]]; reflexivity.
Defined.

(** ** A whole run *)

Lemma election_shift_never_raises (ties : TieOrder) (df : DataFrame) :
  exists s, election_shift ties df = Ok s.
Proof.
  destruct (has_both_dec df) as [Hb|N].
  - destruct (election_shift_riser ties df Hb) as [r [_ [_ [_ E]]]]. eauto.
  - rewrite (election_shift_info ties df N). eauto.
Qed.

Lemma df_filt_nil_iff (df : DataFrame) (ss ts ps : list string) :
  df_filt df ss ts ps = [] <-> forall r, In r df -> ~ selected ss ts ps r.
Proof.
  unfold df_filt, selected. split.
  - intros E r Hr Hs.
    assert (Hin : In r []); [|contradiction].
    rewrite <- E. apply filter_In. split; [exact Hr|].
    rewrite !andb_true_iff, !isin_In. tauto.
  - intros Hall.
    destruct (filter _ df) as [|r l] eqn:F; [reflexivity|].
    exfalso. assert (Hr : In r (r :: l)) by (left; reflexivity).
    rewrite <- F in Hr. apply filter_In in Hr.
    rewrite !andb_true_iff, !isin_In in Hr.
    apply (Hall r); tauto.
Qed.

(** X9.  A run of the script ends in IndexError exactly when no article
    of the corpus passes the three tests of the filter; every other run
    completes, and then the "Articles" figure is positive and is the
    number of articles that pass, and the chart, heatmap and table are
    those of the filtered frame. *)
Theorem dashboard_raises_iff_no_article_selected (ties : TieOrder)
    (df : DataFrame) (ss ts ps : list string) (picked_topic picked_id : nat) :
  (dashboard ties df ss ts ps picked_topic picked_id = Raise IndexError <->
   forall r, In r df -> ~ selected ss ts ps r)
  /\ ((exists page, dashboard ties df ss ts ps picked_topic picked_id = Ok page) <->
      exists r, In r df /\ selected ss ts ps r)
  /\ (forall page,
        dashboard ties df ss ts ps picked_topic picked_id = Ok page ->
        0 < articles page
        /\ articles page = Z.of_nat (scan_count ss ts ps df)
        /\ line_chart page = time_df ties (df_filt df ss ts ps)
        /\ heatmap page = heat_df (df_filt df ss ts ps)
        /\ top_table page = top_topics_df ties (df_filt df ss ts ps)
        /\ article_explorer (df_filt df ss ts ps) picked_topic picked_id
           = Ok (text_area page)).
Proof.
  assert (Len : List.length (df_filt df ss ts ps) = scan_count ss ts ps df).
  { induction df as [|r df IH]; [reflexivity|].
    rewrite df_filt_cons. simpl.
    destruct (selected_dec ss ts ps r); simpl; rewrite IH; reflexivity. }
  assert (Run : dashboard ties df ss ts ps picked_topic picked_id
                = bind (election_shift ties (df_filt df ss ts ps)) (fun s =>
                  bind (article_explorer (df_filt df ss ts ps)
                          picked_topic picked_id) (fun txt =>
                  Ok {| articles := Z.of_nat (List.length (df_filt df ss ts ps));
                        topics := pd.nunique (map topic_name (df_filt df ss ts ps));
                        organisations := pd.nunique (map source (df_filt df ss ts ps));
                        shift := render_shift s;
                        line_chart := time_df ties (df_filt df ss ts ps);
                        heatmap := heat_df (df_filt df ss ts ps);
                        top_table := top_topics_df ties (df_filt df ss ts ps);
                        text_area := txt |})))
    by reflexivity.
  destruct (election_shift_never_raises ties (df_filt df ss ts ps)) as [s Es].
  rewrite Es in Run. cbn [bind] in Run.
  destruct (df_filt df ss ts ps) as [|r0 f] eqn:F.
  - assert (E0 : article_explorer [] picked_topic picked_id = Raise IndexError).
    { unfold article_explorer. simpl. rewrite !selectbox_nil. reflexivity. }
    rewrite E0 in Run. cbn [bind] in Run. rewrite Run.
    pose proof (proj1 (df_filt_nil_iff df ss ts ps) F) as None.
    split; [tauto|]. split.
    + split; [intros [page E]; discriminate|].
      intros [r [Hr Hs]]. exfalso. apply (None r Hr Hs).
    + intros page E. discriminate.
  - destruct (article_explorer_ok (r0 :: f) picked_topic picked_id)
      as [txt Etxt]; [discriminate|].
    rewrite Etxt in Run. cbn [bind] in Run. rewrite Run.
    assert (Hr0 : In r0 df /\ selected ss ts ps r0).
    { assert (Hin : In r0 (df_filt df ss ts ps)) by (rewrite F; left; reflexivity).
      unfold df_filt, selected in *. apply filter_In in Hin.
      rewrite !andb_true_iff, !isin_In in Hin. tauto. }
    split; [|split].
    + split; [discriminate|]. intros None. exfalso.
      apply (None r0); tauto.
    + split; [intros _; exists r0; exact Hr0 | intros _; eauto].
    + intros page E. injection E as <-. cbn [articles line_chart heatmap
        top_table text_area]. rewrite <- Len.
      repeat split; try reflexivity; try exact Etxt; simpl List.length; lia.
Qed.

(** X10.  A fresh run on a corpus with at least one article (every
    option selected, both boxes on their first option) completes: it
    counts every article of the corpus and shows the text of the first
    one. *)
Theorem fresh_run_shows_first_article
    (ties : TieOrder) (r0 : Row) (rest : DataFrame) :
  let df := r0 :: rest in
  exists page,
    dashboard ties df (source_options df) (topic_options df) (period_options df) 0 0
    = Ok page
    /\ articles page = Z.of_nat (List.length df)
    /\ topics page = pd.nunique (map topic_name df)
    /\ organisations page = pd.nunique (map source df)
    /\ text_area page = text_clean r0.
Proof.
  intros df.
  assert (F : df_filt df (source_options df) (topic_options df)
                (period_options df) = df).
  { unfold df_filt. apply filter_all. intros r Hr.
    rewrite !andb_true_iff, !isin_In.
    unfold source_options, topic_options, period_options.
    rewrite !sorted_unique_In, unique_In.
    repeat split; apply in_map; exact Hr. }
  destruct (election_shift_never_raises ties df) as [s Es].
  assert (Etxt : article_explorer df 0 0 = Ok (text_clean r0)).
  { unfold df, article_explorer, selectbox, subset, text. simpl.
    rewrite String.eqb_refl. simpl. rewrite Z.eqb_refl. reflexivity. }
  unfold dashboard. rewrite F. cbv zeta. rewrite Es. cbn [bind].
  rewrite Etxt. cbn [bind]. eexists. split; [reflexivity|].
  cbn [articles topics organisations text_area]. auto.
Qed.

(** ** The riser that is shown *)

Lemma inject_Z_le (x y : Z) : (inject_Z x <= inject_Z y)%Q -> x <= y.
Proof. unfold Qle, inject_Z. cbn [Qnum Qden]. lia. Qed.

(** X11.  With both periods in the frame, the topic shown as biggest
    riser is a topic of the frame and the number shown beside it lies
    between 0 and the number of distinct topics less one: the block
    never shows a negative change. *)
Theorem shown_riser_delta_bounds
    (ties : TieOrder) (df : DataFrame) (Hb : has_both df) :
  exists t d,
    election_shift ties df = Ok (BiggestRiser t d)
    /\ In t (map topic_name df)
    /\ 0 <= d <= pd.nunique (map topic_name df) - 1.
Proof.
  destruct (election_shift_riser ties df Hb) as [top [_ [Hin [Hmax E]]]].
  exists (pv_topic (row top)), (int (rank_change top)).
  split; [exact E|].
  pose proof (max_rank_change_nonneg (pivot (rank df)) top Hin Hmax) as [P0 _].
  pose proof (rank_change_halves (pivot (rank df)) top Hin P0) as Hh.
  apply add_ranks_In in Hin. destruct Hin as [Hrow [Epre [Epost Ech]]].
  split; [apply (pivot_row_In df), Hrow|].
  assert (Bpre : (rank_pre top
                  <= inject_Z (Z.of_nat (List.length (pivot (rank df)))))%Q).
  { rewrite Epre.
    rewrite <- (length_map pre_election (pivot (rank df))).
    apply rank_desc_bounds. apply in_map. exact Hrow. }
  assert (Bpost : (1 <= rank_post top)%Q).
  { rewrite Epost. apply rank_desc_bounds. apply in_map. exact Hrow. }
  rewrite pivot_length in Bpre. fold (pd.nunique (map topic_name df)) in Bpre.
  set (N := pd.nunique (map topic_name df)) in *.
  set (d := int (rank_change top)) in *.
  rewrite Ech in P0, Hh.
  assert (Up : (inject_Z d <= inject_Z (N - 1))%Q).
  { unfold Z.sub. rewrite inject_Z_plus, inject_Z_opp.
    change (inject_Z 1) with 1%Q. destruct Hh as [Hh|Hh]; lra. }
  assert (Lo : (inject_Z (-1) <= inject_Z d)%Q).
  { change (inject_Z (-1)) with (-1 # 1)%Q. destruct Hh as [Hh|Hh]; lra. }
  apply inject_Z_le in Up, Lo.
  assert (Lo' : d <> -1).
  { intros Ed. rewrite Ed in Hh.
    change (inject_Z (-1)) with (-1 # 1)%Q in Hh. destruct Hh as [Hh|Hh]; lra. }
  lia.
Qed.

Lemma shown_riser_delta_bounds_witness :
  has_both example_df
  /\ exists t d, election_shift input_order example_df = Ok (BiggestRiser t d)
                 /\ 0 <= d <= 1.
Proof.
  assert (Hb : has_both example_df).
  { unfold has_both. split.
    - vm_compute. left. reflexivity.
    - vm_compute. do 12 right. left. reflexivity. }
  split; [exact Hb|].
  destruct (shown_riser_delta_bounds input_order example_df Hb)
    as [t [d [E [_ B]]]].
  exists t, d. split; [exact E|]. exact B.
Defined.

(** ** The order of the rows *)

Lemma nunique_perm {K : Type} `{KeyLaws K} (l l' : list K) :
  Permutation l l' -> pd.nunique l = pd.nunique l'.
Proof.
  intros P. unfold pd.nunique. f_equal.
  apply Permutation_length, NoDup_Permutation; try apply unique_NoDup.
  intros x. rewrite !unique_In.
  split; apply Permutation_in; [exact P | symmetry; exact P].
Qed.

(** X13.  The grouped counts, the pivot, the election-shift block, the
    heatmap frame and the three headline figures do not depend on the
    order of the rows of the filtered frame. *)
Theorem grouped_outputs_ignore_row_order (ties : TieOrder) (df df' : DataFrame)
    (P : Permutation df df') :
  rank df = rank df'
  /\ pivot (rank df) = pivot (rank df')
  /\ election_shift ties df = election_shift ties df'
  /\ heat_df df = heat_df df'
  /\ List.length df = List.length df'
  /\ pd.nunique (map topic_name df) = pd.nunique (map topic_name df')
  /\ pd.nunique (map source df) = pd.nunique (map source df').
Proof.
  assert (Er : rank df = rank df') by (apply groupby_size_perm; exact P).
  repeat match goal with |- _ /\ _ => split end.
  - exact Er.
  - rewrite Er. reflexivity.
  - unfold election_shift. rewrite Er. reflexivity.
  - apply groupby_size_perm. exact P.
  - apply Permutation_length. exact P.
  - apply nunique_perm, Permutation_map. exact P.
  - apply nunique_perm, Permutation_map. exact P.
Qed.

Lemma grouped_outputs_ignore_row_order_witness :
  Permutation ab_df ba_df /\ heat_df ab_df = heat_df ba_df.
Proof.
  assert (P : Permutation ab_df ba_df) by apply perm_swap.
  split; [exact P|].
  apply (grouped_outputs_ignore_row_order input_order ab_df ba_df P).
Defined.

(** ** Rank changes balance *)

(** X14.  The rank changes of the topics of the pivot add up to zero:
    a topic has a positive rank change exactly when another has a
    negative one. *)
Theorem rank_changes_balance (df : DataFrame) :
  let ranked := add_ranks (pivot (rank df)) in
  (sum_Q (map rank_change ranked) == 0)%Q
  /\ ((exists r, In r ranked /\ (0 < rank_change r)%Q) <->
      (exists r, In r ranked /\ (rank_change r < 0)%Q)).
Proof.
  intros ranked. pose proof (sum_rank_change (pivot (rank df))) as S.
  fold ranked in S. split; [exact S|].
  assert (Neg : forall l : list Q,
            (forall q, In q l -> (q <= 0)%Q) -> (sum_Q l == 0)%Q ->
            forall q, In q l -> (q == 0)%Q) by apply sum_Q_zero_nonpos.
  assert (Pos : forall l : list Q,
            (forall q, In q l -> (0 <= q)%Q) -> (sum_Q l == 0)%Q ->
            forall q, In q l -> (q == 0)%Q).
  { induction l as [|x l IH]; simpl; intros H E q Hq; [contradiction|].
    assert (Hx := H x (or_introl eq_refl)).
    assert (Hl : (0 <= sum_Q l)%Q).
    { clear - H. induction l as [|y l IHl]; simpl; [lra|].
      assert (Hy := H y (or_intror (or_introl eq_refl))).
      assert (Hr : (0 <= sum_Q l)%Q)
        by (apply IHl; intros q [<-|Hq]; apply H; simpl; auto).
      lra. }
    destruct Hq as [<-|Hq]; [lra|].
    apply IH; auto. lra. }
  split.
  - intros [r [Hr Lr]].
    destruct (existsb (fun x => negb (Qle_bool 0 (rank_change x))) ranked) eqn:Ex.
    + apply existsb_exists in Ex. destruct Ex as [x [Hx Nx]].
      exists x. split; [exact Hx|].
      apply negb_true_iff in Nx.
      destruct (Qlt_le_dec (rank_change x) 0) as [L|L]; [exact L|].
      apply Qle_bool_iff in L. congruence.
    + exfalso.
      assert (All : forall q, In q (map rank_change ranked) -> (0 <= q)%Q).
      { intros q Hq. apply in_map_iff in Hq. destruct Hq as [x [<- Hx]].
        destruct (Qle_bool 0 (rank_change x)) eqn:B;
          [apply Qle_bool_iff; exact B|].
        assert (T : existsb (fun x => negb (Qle_bool 0 (rank_change x))) ranked
                    = true)
          by (apply existsb_exists; exists x; rewrite B; auto).
        congruence. }
      pose proof (Pos _ All S (rank_change r) (in_map _ _ _ Hr)). lra.
  - intros [r [Hr Lr]].
    destruct (existsb (fun x => negb (Qle_bool (rank_change x) 0)) ranked) eqn:Ex.
    + apply existsb_exists in Ex. destruct Ex as [x [Hx Nx]].
      exists x. split; [exact Hx|].
      apply negb_true_iff in Nx.
      destruct (Qlt_le_dec 0 (rank_change x)) as [L|L]; [exact L|].
      apply Qle_bool_iff in L. congruence.
    + exfalso.
      assert (All : forall q, In q (map rank_change ranked) -> (q <= 0)%Q).
      { intros q Hq. apply in_map_iff in Hq. destruct Hq as [x [<- Hx]].
        destruct (Qle_bool (rank_change x) 0) eqn:B;
          [apply Qle_bool_iff; exact B|].
        assert (T : existsb (fun x => negb (Qle_bool (rank_change x) 0)) ranked
                    = true)
          by (apply existsb_exists; exists x; rewrite B; auto).
        congruence. }
      pose proof (Neg _ All S (rank_change r) (in_map _ _ _ Hr)). lra.
Qed.

(** ** The label of the riser *)

Lemma to_upper_facts (c : ascii) :
  to_upper (to_upper c) = to_upper c
  /\ (is_upper (to_upper c) || is_lower (to_upper c)) = (is_upper c || is_lower c)
  /\ to_lower (to_lower c) = to_lower c
  /\ (is_upper (to_lower c) || is_lower (to_lower c)) = (is_upper c || is_lower c)
  /\ (Ascii.eqb c "_" = false -> Ascii.eqb (to_upper c) "_" = false)
  /\ (Ascii.eqb c "_" = false -> Ascii.eqb (to_lower c) "_" = false).
Proof.
  destruct c as [[] [] [] [] [] [] [] []]; vm_compute; repeat split; auto.
Qed.

Lemma title_from_length (b : bool) (s : string) :
  String.length (title_from b s) = String.length s.
Proof.
  revert b. induction s as [|c s IH]; intros b; simpl; [reflexivity|].
  rewrite IH. reflexivity.
Qed.

Lemma replace_underscore_length (s : string) :
  String.length (replace_underscore s) = String.length s.
Proof. induction s as [|c s IH]; simpl; congruence. Qed.

Lemma replace_underscore_clean (s : string) :
  has_char "_" (replace_underscore s) = false.
Proof.
  induction s as [|c s IH]; [reflexivity|].
  cbn [replace_underscore has_char]. rewrite IH, orb_false_r.
  destruct (Ascii.eqb c "_") eqn:E; [reflexivity|].
  rewrite Ascii.eqb_sym. exact E.
Qed.

Lemma title_from_clean (b : bool) (s : string) :
  has_char "_" s = false -> has_char "_" (title_from b s) = false.
Proof.
  revert b. induction s as [|c s IH]; intros b; [reflexivity|].
  cbn [title_from has_char]. rewrite orb_false_iff. intros [Hc Hs].
  rewrite (IH _ Hs), orb_false_r.
  rewrite Ascii.eqb_sym in Hc. rewrite Ascii.eqb_sym.
  destruct (to_upper_facts c) as [_ [_ [_ [_ [U L]]]]].
  destruct b; auto.
Qed.

Lemma replace_underscore_id (s : string) :
  has_char "_" s = false -> replace_underscore s = s.
Proof.
  induction s as [|c s IH]; [reflexivity|].
  cbn [replace_underscore has_char]. rewrite orb_false_iff. intros [Hc Hs].
  rewrite (IH Hs). rewrite Ascii.eqb_sym in Hc. rewrite Hc. reflexivity.
Qed.

Lemma title_from_idem (b : bool) (s : string) :
  title_from b (title_from b s) = title_from b s.
Proof.
  revert b. induction s as [|c s IH]; intros b; simpl; [reflexivity|].
  destruct (to_upper_facts c) as [U1 [U2 [L1 [L2 _]]]].
  destruct b.
  - rewrite L1, L2, IH. reflexivity.
  - rewrite U1, U2, IH. reflexivity.
Qed.

(** X15.  For a topic name of ASCII characters, the label made from it
    has as many characters as the name and no underscore in it, and
    making a label from a label changes nothing. *)
Theorem metric_value_is_clean_and_stable (topic : string)
    (Hascii : is_ascii_string topic = true) :
  String.length (metric_value topic) = String.length topic
  /\ has_char "_" (metric_value topic) = false
  /\ metric_value (metric_value topic) = metric_value topic.
Proof.
  unfold metric_value, title. split; [|split].
  - rewrite title_from_length. apply replace_underscore_length.
  - apply title_from_clean, replace_underscore_clean.
  - rewrite (replace_underscore_id (title_from false (replace_underscore topic)))
      by (apply title_from_clean, replace_underscore_clean).
    apply title_from_idem.
Qed.

Lemma metric_value_is_clean_and_stable_witness :
  is_ascii_string "school_funding" = true
  /\ metric_value "school_funding" = "School Funding"
  /\ has_char "_" (metric_value "school_funding") = false.
Proof.
  split; [reflexivity|]. split; [reflexivity|].
  apply (metric_value_is_clean_and_stable "school_funding"). reflexivity.
Defined.
